(** * Eligibility checker: the backend pipeline of [backend/src/server.ts]

    A shallow embedding of the request-validation, age-computation,
    persistence and aggregation pipeline of the eligibility service, with the
    error middleware of [backend/src/middleware/errorHandler.ts] and the
    table constraints of [database/init.sql].

    The platform the handlers run on is modelled first (JavaScript strings
    and dates, the Joi schema language, the PostgreSQL table), then the
    definitions of the server itself, then the properties of the pipeline. *)

From Stdlib Require Import ZArith NArith QArith Qabs Bool List Ascii String Lia.
From Stdlib Require Import DecimalString.
Import ListNotations.

Local Open Scope Z_scope.

(* ================================================================== *)
(** ** JavaScript strings *)
(* ================================================================== *)

(** A JavaScript string is a sequence of UTF-16 code units; [length] counts
    code units, which is what Joi's [min]/[max] and [String.prototype.trim]
    work on. *)
Module JsString.

Definition t := list N.

(** An ASCII literal as a JavaScript string. *)
Definition of_string (s : string) : t :=
  map N_of_ascii (list_ascii_of_string s).

Definition length (s : t) : nat := List.length s.

(** WhiteSpace and LineTerminator of ECMA-262: the characters removed by
    [trim] and matched by the regular-expression class [\s]. *)
Definition isWhiteSpace (c : N) : bool :=
  ((9 <=? c) && (c <=? 13)            (* TAB LF VT FF CR *)
   || (c =? 32)                        (* SPACE *)
   || (c =? 160)                       (* NO-BREAK SPACE *)
   || (c =? 5760)                      (* OGHAM SPACE MARK *)
   || (8192 <=? c) && (c <=? 8202)     (* EN QUAD .. HAIR SPACE *)
   || (c =? 8232) || (c =? 8233)       (* LINE / PARAGRAPH SEPARATOR *)
   || (c =? 8239) || (c =? 8287)       (* NARROW NBSP, MEDIUM MATH SPACE *)
   || (c =? 12288)                     (* IDEOGRAPHIC SPACE *)
   || (c =? 65279))%N.                 (* ZERO WIDTH NO-BREAK SPACE *)

Fixpoint trimStart (s : t) : t :=
  match s with
  | [] => []
  | c :: s' => if isWhiteSpace c then trimStart s' else s
  end.

Definition trimEnd (s : t) : t := rev (trimStart (rev s)).

Definition trim (s : t) : t := trimEnd (trimStart s).

End JsString.

Definition jsstring := JsString.t.

(* ================================================================== *)
(** ** JavaScript dates *)
(* ================================================================== *)

(** A [Date] is its time value: milliseconds since 1970-01-01T00:00:00Z.
    The calendar getters follow the definitions of ECMA-262 (Day,
    DayFromYear, YearFromTime, MonthFromTime, DateFromTime) over the local
    time [t + LocalTZA(t)], the offset being the one in force at [t]. *)
Module JsDate.

Definition t := Z.

Definition msPerDay : Z := 86400000.

Definition Day (tv : Z) : Z := tv / msPerDay.

Definition DaysInYear (y : Z) : Z :=
  if negb (y mod 4 =? 0) then 365
  else if negb (y mod 100 =? 0) then 366
  else if negb (y mod 400 =? 0) then 365
  else 366.

Definition InLeapYear (y : Z) : Z :=
  if DaysInYear y =? 366 then 1 else 0.

Definition DayFromYear (y : Z) : Z :=
  365 * (y - 1970) + (y - 1969) / 4 - (y - 1901) / 100 + (y - 1601) / 400.

(** The year [y] with [DayFromYear y <= d < DayFromYear (y + 1)]: an
    estimate from the mean year length, corrected by at most one. *)
Definition YearFromDay (d : Z) : Z :=
  let e := 1970 + (400 * d) / 146097 in
  if d <? DayFromYear e then e - 1
  else if DayFromYear (e + 1) <=? d then e + 1
  else e.

Definition DayWithinYear (d : Z) : Z := d - DayFromYear (YearFromDay d).

(** Months are numbered from 0 (January) to 11 (December). *)
Definition MonthFromDay (d : Z) : Z :=
  let w := DayWithinYear d in
  let l := InLeapYear (YearFromDay d) in
  if w <? 31 then 0
  else if w <? 59 + l then 1
  else if w <? 90 + l then 2
  else if w <? 120 + l then 3
  else if w <? 151 + l then 4
  else if w <? 181 + l then 5
  else if w <? 212 + l then 6
  else if w <? 243 + l then 7
  else if w <? 273 + l then 8
  else if w <? 304 + l then 9
  else if w <? 334 + l then 10
  else 11.

Definition DateFromDay (d : Z) : Z :=
  let w := DayWithinYear d in
  let l := InLeapYear (YearFromDay d) in
  match MonthFromDay d with
  | 0 => w + 1
  | 1 => w - 30
  | 2 => w - 58 - l
  | 3 => w - 89 - l
  | 4 => w - 119 - l
  | 5 => w - 150 - l
  | 6 => w - 180 - l
  | 7 => w - 211 - l
  | 8 => w - 242 - l
  | 9 => w - 272 - l
  | 10 => w - 303 - l
  | _ => w - 333 - l
  end.

Section LocalZone.

(** Offset of the server's local time zone from UTC at an instant, in
    milliseconds (LocalTZA(t, true) of ECMA-262): it changes when daylight
    time begins or ends and when the rules of the zone change. *)
Variable LocalTZA : Z -> Z.

Definition LocalTime (tv : t) : Z := tv + LocalTZA tv.

Definition getFullYear (tv : t) : Z := YearFromDay (Day (LocalTime tv)).
Definition getMonth (tv : t) : Z := MonthFromDay (Day (LocalTime tv)).
Definition getDate (tv : t) : Z := DateFromDay (Day (LocalTime tv)).

End LocalZone.

(** A zone whose offset never changes; UTC is [fixed 0]. *)
Definition fixed (offset : Z) : Z -> Z := fun _ => offset.

(** The first day of month [m] (0..11) within year [y], and the length of
    that month. *)
Definition monthStart (y m : Z) : Z :=
  let l := InLeapYear y in
  match m with
  | 0 => 0
  | 1 => 31
  | 2 => 59 + l
  | 3 => 90 + l
  | 4 => 120 + l
  | 5 => 151 + l
  | 6 => 181 + l
  | 7 => 212 + l
  | 8 => 243 + l
  | 9 => 273 + l
  | 10 => 304 + l
  | _ => 334 + l
  end.

Definition DaysInMonth (y m : Z) : Z :=
  match m with
  | 1 => 28 + InLeapYear y
  | 3 | 5 | 8 | 10 => 30
  | _ => 31
  end.

(** [Date.UTC(year, month, date)] for a month in 0..11. *)
Definition UTC (y m d : Z) : t :=
  (DayFromYear y + monthStart y m + (d - 1)) * msPerDay.

End JsDate.

(* ================================================================== *)
(** ** JavaScript values and errors *)
(* ================================================================== *)

(** The values a parsed request body is made of, plus [Date] objects, which
    Joi's conversion puts in place of date strings.  Only integral numbers
    are represented: the pipeline never looks inside a number. *)
#[local] Set Warnings "-register-all".
Inductive JsValue : Type :=
| JUndefined
| JNull
| JBool (b : bool)
| JNumber (n : Z)
| JString (s : jsstring)
| JDate (tv : JsDate.t)
| JArray (items : list JsValue)
| JObject (props : list (string * JsValue)).

(** Property read [obj[k]]: [undefined] when the property is absent. *)
Fixpoint get (props : list (string * JsValue)) (k : string) : JsValue :=
  match props with
  | [] => JUndefined
  | (k', v) :: rest => if String.eqb k k' then v else get rest k
  end.

Definition quoted (s : string) : string :=
  String (ascii_of_nat 34) (s ++ String (ascii_of_nat 34) EmptyString).

(** An [Error] instance as the middleware sees it.  [name] lives on the
    prototype (or is set by the driver), [message] and [stack] are own but
    not enumerable, [code] and [statusCode] are own enumerable properties
    when present. *)
Record JsError : Type := {
  name : string;
  message : string;
  stack : option string;
  code : option string;
  statusCode : option Z
}.

Definition TypeError (msg : string) : JsError :=
  {| name := "TypeError"; message := msg; stack := None;
     code := None; statusCode := None |}.

(** Truthiness of an optional string property. *)
Definition truthy (p : option string) : bool :=
  match p with
  | Some EmptyString => false
  | Some _ => true
  | None => false
  end.

(* ================================================================== *)
(** ** The Joi schema language (the part [userSchema] is written in) *)
(* ================================================================== *)

Module Joi.

Inductive BaseType := StringType | DateType.

Inductive Rule : Type :=
| RuleMin (limit : nat)                  (* string().min(limit) *)
| RuleMax (limit : nat)                  (* string().max(limit) *)
| RulePattern (regex : jsstring -> bool) (* string().pattern(regex) *)
| RuleMaxNow.                            (* date().max('now') *)

Record Schema : Type := {
  baseType : BaseType;
  format : option String.string;         (* date().iso() sets 'iso' *)
  rules : list Rule;                     (* in the order they were added *)
  presenceRequired : bool;
  customMessages : list (String.string * String.string)
}.

(** Validation preferences, of which [abortEarly] is the one that shapes
    the error list.  Joi's default stops at the first error. *)
Record Prefs : Type := { abortEarly : bool }.

Definition defaults : Prefs := {| abortEarly := true |}.

(** The text of an error: one of the schema's own [messages], or the
    text Joi's built-in template for that error type produces for the
    label. *)
Inductive Message : Type :=
| Custom (text : String.string)
| Builtin (type label : String.string).

Record Detail : Type := {
  message : Message;
  path : String.string;
  type : String.string
}.

Record Result : Type := {
  error : option (list Detail);
  value : JsValue
}.

Fixpoint lookupMessage (msgs : list (String.string * String.string))
         (ty : String.string) : option String.string :=
  match msgs with
  | [] => None
  | (k, text) :: rest => if String.eqb ty k then Some text else lookupMessage rest ty
  end.

Definition detail (s : Schema) (label ty : String.string) : Detail :=
  {| message := match lookupMessage (customMessages s) ty with
                | Some text => Custom text
                | None => Builtin ty label
                end;
     path := label;
     type := ty |}.

Definition hasMinZero (s : Schema) : bool :=
  existsb (fun r => match r with RuleMin O => true | _ => false end) (rules s).

Section Validation.

(** Joi's conversion of a request value to a date under the schema's
    format: the time value of the date it denotes, if any.  With the
    'iso' format this is the ISO 8601 parser. *)
Variable coerceDate : option String.string -> JsValue -> option JsDate.t.

Variable prefs : Prefs.

(** [Date.now()] at the time of validation. *)
Variable now : Z.

(** The error type a rule raises on a value of the schema's type. *)
Definition ruleError (r : Rule) (v : JsValue) : option String.string :=
  match r, v with
  | RuleMin limit, JString s =>
      if (JsString.length s <? limit)%nat then Some "string.min"%string else None
  | RuleMax limit, JString s =>
      if (limit <? JsString.length s)%nat then Some "string.max"%string else None
  | RulePattern regex, JString s =>
      if regex s then None else Some "string.pattern.base"%string
  | RuleMaxNow, JDate tv =>
      if tv <=? now then None else Some "date.max"%string
  | _, _ => None
  end.

Fixpoint runRules (rs : list Rule) (v : JsValue) : list String.string :=
  match rs with
  | [] => []
  | r :: rest =>
      match ruleError r v with
      | Some ty => if abortEarly prefs then [ty] else ty :: runRules rest v
      | None => runRules rest v
      end
  end.

(** Type check and conversion of a defined value. *)
Definition base (s : Schema) (v : JsValue) : JsValue + String.string :=
  match baseType s with
  | StringType =>
      match v with
      | JString [] => if hasMinZero s then inl v else inr "string.empty"%string
      | JString _ => inl v
      | _ => inr "string.base"%string
      end
  | DateType =>
      match v with
      | JDate _ => inl v
      | _ =>
          match coerceDate (format s) v with
          | Some tv => inl (JDate tv)
          | None =>
              match format s, v with
              | Some _, JString _ => inr "date.format"%string
              | _, _ => inr "date.base"%string
              end
          end
      end
  end.

Definition validateValue (s : Schema) (label : String.string) (v : JsValue)
  : JsValue * list Detail :=
  match v with
  | JUndefined =>
      (v, if presenceRequired s then [detail s label "any.required"] else [])
  | _ =>
      match base s v with
      | inr ty => (v, [detail s label ty])
      | inl v' => (v', map (detail s label) (runRules (rules s) v'))
      end
  end.

(** The keys of an object schema are validated in the order of their
    definition. *)
Fixpoint validateKeys (keys : list (String.string * Schema))
         (props : list (String.string * JsValue))
  : list (String.string * JsValue) * list Detail :=
  match keys with
  | [] => ([], [])
  | (k, s) :: rest =>
      let (v, errs) := validateValue s k (get props k) in
      match errs with
      | _ :: _ =>
          if abortEarly prefs then ([], errs)
          else let (vs, errs') := validateKeys rest props in
               ((k, v) :: vs, errs ++ errs')
      | [] =>
          let (vs, errs') := validateKeys rest props in
          ((k, v) :: vs, errs')
      end
  end.

Definition isKey (keys : list (String.string * Schema)) (k : String.string) : bool :=
  existsb (fun ks => String.eqb k (fst ks)) keys.

(** Properties of the input the schema does not name are refused. *)
Definition unknownKeys (keys : list (String.string * Schema))
           (props : list (String.string * JsValue)) : list Detail :=
  map (fun kv => {| message := Builtin "object.unknown" (fst kv);
                    path := fst kv;
                    type := "object.unknown" |})
      (filter (fun kv => negb (isKey keys (fst kv))) props).

Definition validate (keys : list (String.string * Schema)) (input : JsValue) : Result :=
  match input with
  | JUndefined => {| error := None; value := JUndefined |}
  | JObject props =>
      let (vs, errs) := validateKeys keys props in
      let errs :=
        match errs with
        | _ :: _ => if abortEarly prefs then errs else errs ++ unknownKeys keys props
        | [] => if abortEarly prefs then firstn 1 (unknownKeys keys props)
                else unknownKeys keys props
        end in
      match errs with
      | [] => {| error := None; value := JObject vs |}
      | _ :: _ => {| error := Some errs; value := input |}
      end
  | _ =>
      {| error := Some [ {| message := Builtin "object.base" "value";
                            path := EmptyString;
                            type := "object.base" |} ];
         value := input |}
  end.

End Validation.

(** Schema builders, named as in Joi. *)
Definition ObjectSchema := list (String.string * Schema).

Definition object (keys : list (String.string * Schema)) : ObjectSchema := keys.

Definition string : Schema :=
  {| baseType := StringType; format := None; rules := [];
     presenceRequired := false; customMessages := [] |}.

Definition date : Schema :=
  {| baseType := DateType; format := None; rules := [];
     presenceRequired := false; customMessages := [] |}.

Definition addRule (r : Rule) (s : Schema) : Schema :=
  {| baseType := baseType s; format := format s; rules := rules s ++ [r];
     presenceRequired := presenceRequired s; customMessages := customMessages s |}.

Definition min (limit : nat) : Schema -> Schema := addRule (RuleMin limit).
Definition max (limit : nat) : Schema -> Schema := addRule (RuleMax limit).
Definition pattern (regex : jsstring -> bool) : Schema -> Schema :=
  addRule (RulePattern regex).
Definition max_now : Schema -> Schema := addRule RuleMaxNow.

Definition iso (s : Schema) : Schema :=
  {| baseType := baseType s; format := Some "iso"%string; rules := rules s;
     presenceRequired := presenceRequired s; customMessages := customMessages s |}.

Definition required (s : Schema) : Schema :=
  {| baseType := baseType s; format := format s; rules := rules s;
     presenceRequired := true; customMessages := customMessages s |}.

Definition messages (msgs : list (String.string * String.string)) (s : Schema) : Schema :=
  {| baseType := baseType s; format := format s; rules := rules s;
     presenceRequired := presenceRequired s;
     customMessages := msgs ++ customMessages s |}.

End Joi.

(** Method chaining: [x |> f |> g] is [x.f().g()]. *)
Notation "x |> f" := (f x) (at level 45, left associativity, only parsing).

(* ================================================================== *)
(** ** The [users] table of [database/init.sql] *)
(* ================================================================== *)

Module Pg.

Record Row : Type := {
  id : Z;
  first_name : jsstring;
  last_name : jsstring;
  date_of_birth : JsDate.t;
  age : Z;
  is_eligible : bool;
  created_at : Z
}.

(** The table and the sequence behind its SERIAL key ([users_id_seq]
    holds the last value handed out). *)
Record Database : Type := {
  users : list Row;
  users_id_seq : Z
}.

Definition empty : Database := {| users := []; users_id_seq := 0 |}.

(** The largest value of the sequence of a SERIAL (4-byte integer)
    column. *)
Definition maxSerial : Z := 2147483647.

(** An error reported by the server, as the driver raises it: its [name]
    is ['error'] and its [code] the SQLSTATE. *)
Definition DatabaseError (sqlstate msg : string) : JsError :=
  {| name := "error"; message := msg; stack := None;
     code := Some sqlstate; statusCode := None |}.

(** [INSERT INTO users (first_name, last_name, date_of_birth, age,
    is_eligible, created_at) VALUES ($1, $2, $3, $4, $5, NOW())
    RETURNING id, created_at] under the constraints of the table:
    the SERIAL key, VARCHAR(50) names and CHECK (age >= 0 AND age <= 150).
    [nextval] fails once the sequence has handed out its largest value;
    the sequence value drawn for a refused row is not given back. *)
Definition insertUser (NOW : Z) (db : Database)
           (p1 p2 : jsstring) (p3 : JsDate.t) (p4 : Z) (p5 : bool)
  : (JsError + Row) * Database :=
  if maxSerial <=? users_id_seq db then
    (inl (DatabaseError "2200H"
            ("nextval: reached maximum value of sequence " ++ quoted "users_id_seq"
             ++ " (2147483647)")), db)
  else
  let next := users_id_seq db + 1 in
  let refused := {| users := users db; users_id_seq := next |} in
  if ((50 <? JsString.length p1) || (50 <? JsString.length p2))%nat then
    (inl (DatabaseError "22001" "value too long for type character varying(50)"), refused)
  else if negb ((0 <=? p4) && (p4 <=? 150)) then
    (inl (DatabaseError "23514"
            ("new row for relation " ++ quoted "users" ++
             " violates check constraint " ++ quoted "users_age_check")), refused)
  else
    let row := {| id := next; first_name := p1; last_name := p2;
                  date_of_birth := p3; age := p4; is_eligible := p5;
                  created_at := NOW |} in
    (inr row, {| users := users db ++ [row]; users_id_seq := next |}).

Record StatsRow : Type := {
  total_users : Z;
  eligible_users : Z;
  ineligible_users : Z;
  average_age : option Q          (* NULL over an empty table *)
}.

Definition count (p : Row -> bool) (rows : list Row) : Z :=
  Z.of_nat (List.length (filter p rows)).

Definition sum (f : Row -> Z) (rows : list Row) : Z :=
  fold_right (fun r acc => f r + acc) 0 rows.

(** [ROUND(n / d, 2)] on numerics, for [d > 0]: the nearest multiple of
    0.01, a tie going away from zero. *)
Definition round2 (n d : Z) : Q :=
  Qmake (Z.sgn n * ((200 * Z.abs n + d) / (2 * d))) 100.

(** [ROUND(AVG(age), 2)]. *)
Definition roundAvgAge (rows : list Row) : option Q :=
  match rows with
  | [] => None
  | _ :: _ => Some (round2 (sum age rows) (count (fun _ => true) rows))
  end.

(** [SELECT COUNT( * ), COUNT( * ) FILTER (WHERE is_eligible = true),
    COUNT( * ) FILTER (WHERE is_eligible = false), ROUND(AVG(age), 2)
    FROM users]. *)
Definition selectStats (db : Database) : StatsRow :=
  {| total_users := count (fun _ => true) (users db);
     eligible_users := count (fun r => Bool.eqb (is_eligible r) true) (users db);
     ineligible_users := count (fun r => Bool.eqb (is_eligible r) false) (users db);
     average_age := roundAvgAge (users db) |}.

End Pg.

(* ================================================================== *)
(** ** HTTP responses *)
(* ================================================================== *)

Inductive Body : Type :=
| Eligibility (id age : Z) (eligible : bool) (message : string) (timestamp : Z)
| ValidationFailed (error : string) (details : list Joi.Message)
| Failure (success : bool) (error : string) (stack : option string)
| Statistics (totalUsers eligibleUsers ineligibleUsers : Z) (averageAge : Q).

Record Response : Type := { status : Z; body : Body }.

(** What a call observes of its surroundings. *)
Record World : Type := {
  NODE_ENV : option string;
  LocalTZA : Z -> Z;              (* the server's offset from UTC at an instant, in ms *)
  clock : Z;                      (* [Date.now()] when the body is validated *)
  elapsed : N;                    (* ms from then to [new Date()] in calculateAge *)
  NOW : Z;                        (* the database's clock *)
  storageFault : option JsError   (* what [pool.query] rejects with, if it does *)
}.

(** The [new Date()] that [calculateAge] reads: taken after the body was
    validated. *)
Definition newDate (w : World) : JsDate.t := clock w + Z.of_N (elapsed w).

(* ================================================================== *)
(** ** [middleware/errorHandler.ts] *)
(* ================================================================== *)

(** The object [{ ...err }]: the spread copies own enumerable properties
    only, so neither [message] nor [stack] of an [Error] comes along. *)
Record CustomError : Type := {
  error_message : option string;
  error_stack : option string;
  error_statusCode : option Z
}.

Definition spread (err : JsError) : CustomError :=
  {| error_message := None; error_stack := None;
     error_statusCode := statusCode err |}.

Definition withMessage (error : CustomError) (msg : string) (sc : option Z) : CustomError :=
  {| error_message := Some msg; error_stack := error_stack error;
     error_statusCode := sc |}.

Definition errorHandler (env : option string) (err : JsError) : Response :=
  let error := spread err in
  let error := withMessage error (message err) (error_statusCode error) in
  (* PostgreSQL errors *)
  let error :=
    if String.eqb (name err) "error" && truthy (code err) then
      match code err with
      | Some c =>
          if String.eqb c "23505" then withMessage error "Duplicate entry" (Some 409)
          else if String.eqb c "23503" then
            withMessage error "Foreign key constraint violation" (Some 400)
          else if String.eqb c "23502" then
            withMessage error "Required field missing" (Some 400)
          else withMessage error "Database error" (Some 500)
      | None => error
      end
    else error in
  let statusCode :=
    match error_statusCode error with
    | Some 0 | None => 500
    | Some sc => sc
    end in
  let message :=
    match error_message error with
    | Some EmptyString | None => "Internal Server Error"%string
    | Some m => m
    end in
  {| status := statusCode;
     body := Failure false message
               (match env with
                | Some e => if String.eqb e "development" then error_stack error else None
                | None => None
                end) |}.

(* ================================================================== *)
(** ** [server.ts] *)
(* ================================================================== *)

(** The regular expression [/^[a-zA-Z\s'-]+$/]. *)
Definition nameChar (c : N) : bool :=
  ((97 <=? c) && (c <=? 122)          (* a-z *)
   || (65 <=? c) && (c <=? 90)        (* A-Z *)
   || JsString.isWhiteSpace c         (* \s *)
   || (c =? 39)                       (* ' *)
   || (c =? 45))%N.                   (* - *)

Definition nameRegex (s : jsstring) : bool :=
  match s with
  | [] => false
  | _ :: _ => forallb nameChar s
  end.

Definition userSchema : Joi.ObjectSchema :=
  Joi.object [
    ("firstName"%string,
     Joi.string
     |> Joi.min 1
     |> Joi.max 50
     |> Joi.pattern nameRegex
     |> Joi.required
     |> Joi.messages [
          ("string.pattern.base", "First name must contain only letters, spaces, hyphens, and apostrophes");
          ("string.min", "First name must be at least 1 character long");
          ("string.max", "First name cannot exceed 50 characters")
        ]%string);
    ("lastName"%string,
     Joi.string
     |> Joi.min 1
     |> Joi.max 50
     |> Joi.pattern nameRegex
     |> Joi.required
     |> Joi.messages [
          ("string.pattern.base", "Last name must contain only letters, spaces, hyphens, and apostrophes");
          ("string.min", "Last name must be at least 1 character long");
          ("string.max", "Last name cannot exceed 50 characters")
        ]%string);
    ("dateOfBirth"%string,
     Joi.date
     |> Joi.iso
     |> Joi.max_now
     |> Joi.required
     |> Joi.messages [
          ("date.max", "Date of birth cannot be in the future")
        ]%string)
  ].

(** Helper function to calculate age; [today] is the [new Date()] the
    function reads, [tza] the zone its getters work in. *)
Definition calculateAge (tza : Z -> Z) (today : JsDate.t) (birthDate : JsDate.t) : Z :=
  let age := JsDate.getFullYear tza today - JsDate.getFullYear tza birthDate in
  let monthDiff := JsDate.getMonth tza today - JsDate.getMonth tza birthDate in
  if (monthDiff <? 0)
     || ((monthDiff =? 0) && (JsDate.getDate tza today <? JsDate.getDate tza birthDate))
  then age - 1
  else age.

Definition eligibilityMessage (isEligible : bool) : string :=
  if isEligible
  then "You are eligible for the program"
  else "You are not eligible for the program".

Section Routes.

(** Joi's date conversion (see [Joi.base]). *)
Variable coerceDate : option string -> JsValue -> option JsDate.t.

(** [pool.query]: rejects with the storage fault of this call, if any. *)
Definition queryInsert (w : World) (db : Pg.Database)
           (p1 p2 : jsstring) (p3 : JsDate.t) (p4 : Z) (p5 : bool)
  : (JsError + Pg.Row) * Pg.Database :=
  match storageFault w with
  | Some e => (inl e, db)
  | None => Pg.insertUser (NOW w) db p1 p2 p3 p4 p5
  end.

Definition queryStats (w : World) (db : Pg.Database) : JsError + Pg.StatsRow :=
  match storageFault w with
  | Some e => inl e
  | None => inr (Pg.selectStats db)
  end.

(** POST /api/check-eligibility.  The two last branches are the
    [TypeError]s the handler would raise on a validated value of the
    wrong shape; they go to the error middleware like every exception
    of the [try] block. *)
Definition checkEligibility (w : World) (db : Pg.Database) (reqBody : JsValue)
  : Response * Pg.Database :=
  let r := Joi.validate coerceDate Joi.defaults (clock w) userSchema reqBody in
  match Joi.error r with
  | Some details =>
      ({| status := 400;
          body := ValidationFailed "Validation failed" (map Joi.message details) |},
       db)
  | None =>
      match Joi.value r with
      | JObject props =>
          match get props "firstName", get props "lastName", get props "dateOfBirth" with
          | JString firstName, JString lastName, JDate dateOfBirth =>
              (* Calculate age *)
              let age := calculateAge (LocalTZA w) (newDate w) dateOfBirth in
              let isEligible := age >=? 18 in
              (* Store in database *)
              match queryInsert w db (JsString.trim firstName) (JsString.trim lastName)
                                dateOfBirth age isEligible with
              | (inr row, db') =>
                  ({| status := 201;
                      body := Eligibility (Pg.id row) age isEligible
                                          (eligibilityMessage isEligible)
                                          (Pg.created_at row) |},
                   db')
              | (inl err, db') => (errorHandler (NODE_ENV w) err, db')
              end
          | _, _, _ =>
              (errorHandler (NODE_ENV w) (TypeError "firstName.trim is not a function"), db)
          end
      | _ =>
          (errorHandler (NODE_ENV w)
             (TypeError "Cannot destructure property 'firstName' of 'value'"), db)
      end
  end.

(** [parseFloat(x) || 0]: zero for NULL (NaN) and for zero. *)
Definition parseFloatOrZero (x : option Q) : Q :=
  match x with
  | Some q => if Qeq_bool q 0 then 0%Q else q
  | None => 0%Q
  end.

(** GET /api/stats. *)
Definition getStatistics (w : World) (db : Pg.Database) : Response :=
  match queryStats w db with
  | inr stats =>
      {| status := 200;
         body := Statistics (Pg.total_users stats)
                            (Pg.eligible_users stats)
                            (Pg.ineligible_users stats)
                            (parseFloatOrZero (Pg.average_age stats)) |}
  | inl err => errorHandler (NODE_ENV w) err
  end.

End Routes.

(* ================================================================== *)
(** ** [middleware/errorHandler.ts]: routes that do not exist *)
(* ================================================================== *)

(** [notFoundHandler] builds the error it passes on; [trace] is the stack
    the new [Error] is given. *)
Definition notFoundHandler (originalUrl : string) (trace : string) : JsError :=
  {| name := "Error";
     message := ("Not Found - " ++ originalUrl)%string;
     stack := Some trace;
     code := None;
     statusCode := Some 404 |}.

(** [app.use(notFoundHandler); app.use(errorHandler(logger))]: what a
    request no route matches is answered with. *)
Definition unmatchedRoute (env : option string) (originalUrl trace : string) : Response :=
  errorHandler env (notFoundHandler originalUrl trace).

(* ================================================================== *)
(** ** The form of [eligibility.component.ts] *)
(* ================================================================== *)

(** Angular's validators, as the verdict on a control value ([None] is
    [null], the value of a control after [reset()]). *)
Module Validators.

Definition isEmptyInputValue (v : option jsstring) : bool :=
  match v with
  | None | Some [] => true
  | Some (_ :: _) => false
  end.

Definition required (v : option jsstring) : bool := negb (isEmptyInputValue v).

Definition minLength (n : nat) (v : option jsstring) : bool :=
  match v with
  | None | Some [] => true
  | Some s => negb (JsString.length s <? n)%nat
  end.

Definition pattern (regex : jsstring -> bool) (v : option jsstring) : bool :=
  match v with
  | None | Some [] => true
  | Some s => regex s
  end.

End Validators.

Module EligibilityComponent.

(** The validators of the two name controls. *)
Definition nameValidators : list (option jsstring -> bool) :=
  [ Validators.required; Validators.minLength 1; Validators.pattern nameRegex ].

Definition controlValid (validators : list (option jsstring -> bool))
           (v : option jsstring) : bool :=
  forallb (fun validator => validator v) validators.

(** [n] written with [width] decimal digits. *)
Fixpoint padStart (width : nat) (n : Z) : string :=
  match width with
  | O => EmptyString
  | S w => padStart w (n / 10) ++ String (ascii_of_N (Z.to_N (48 + n mod 10))) EmptyString
  end.

(** [new Date(value).toISOString().split('T')[0]]: the calendar date of
    the instant in UTC. *)
Definition toISODate (tv : JsDate.t) : string :=
  let y := JsDate.getFullYear (JsDate.fixed 0) tv in
  let sign : string := if y <? 0 then "-"%string else "+"%string in
  let year : string :=
    if (0 <=? y) && (y <=? 9999) then padStart 4 y
    else (sign ++ padStart 6 (Z.abs y))%string in
  let month : string := padStart 2 (JsDate.getMonth (JsDate.fixed 0) tv + 1) in
  let day : string := padStart 2 (JsDate.getDate (JsDate.fixed 0) tv) in
  (year ++ "-" ++ month ++ "-" ++ day)%string.

(** The text the snack bar shows for what the service throws. *)
Definition snackBarText (thrown : option string) : string :=
  match thrown with
  | Some EmptyString | None => "An error occurred while checking eligibility"
  | Some text => text
  end.

End EligibilityComponent.

(* ================================================================== *)
(** ** [eligibility.service.ts] *)
(* ================================================================== *)

Module EligibilityService.

(** What [HttpErrorResponse.error] holds: a client-side [ErrorEvent], the
    body the server sent, or something without an [error] property. *)
Inductive ErrorPayload : Type :=
| ErrorEvent (message : string)
| ServerBody (b : Body)
| NoPayload.

Module HttpErrorResponse.
Record t : Type := {
  error : ErrorPayload;
  status : Z;
  message : string
}.
End HttpErrorResponse.

(** What the network does with one POST: request and reply both arrive,
    the request never reaches the server, or the server handles the
    request and its reply is lost.  The two failures carry the event the
    browser reports. *)
Inductive Transport : Type :=
| Delivered
| RequestLost (event : ErrorPayload)
| ReplyLost (event : ErrorPayload).

(** [body.error], when the body has that property. *)
Definition bodyError (b : Body) : option string :=
  match b with
  | ValidationFailed e _ => Some e
  | Failure _ e _ => Some e
  | Eligibility _ _ _ _ _ | Statistics _ _ _ _ => None
  end.

Definition numberToString (n : Z) : string := NilZero.string_of_int (Z.to_int n).

Definition newline : string := String (ascii_of_nat 10) EmptyString.

(** [handleError]: the message put in the thrown [{ error: { error } }]. *)
Definition handleError (e : HttpErrorResponse.t) : string :=
  let fallback :=
    ("Error Code: " ++ numberToString (HttpErrorResponse.status e) ++ newline
     ++ "Message: " ++ HttpErrorResponse.message e)%string in
  match HttpErrorResponse.error e with
  | ErrorEvent m => ("Error: " ++ m)%string
  | ServerBody b =>
      match bodyError b with
      | Some EmptyString | None => fallback
      | Some text => text
      end
  | NoPayload => fallback
  end.

Section Http.

Variable coerceDate : option string -> JsValue -> option JsDate.t.

(** The text Angular gives [HttpErrorResponse.message] for a status. *)
Variable failureMessage : Z -> string.

(** How [HttpClient] hands on a reply of the server: a status from 200 to
    299 is a value, any other an error. *)
Definition received (r : Response) : Body + HttpErrorResponse.t :=
  if (200 <=? status r) && (status r <? 300) then inl (body r)
  else inr {| HttpErrorResponse.error := ServerBody (body r);
              HttpErrorResponse.status := status r;
              HttpErrorResponse.message := failureMessage (status r) |}.

(** The error [HttpClient] raises when no reply arrives: status 0, with
    the event of the failed request as its [error]. *)
Definition noReply (event : ErrorPayload) : HttpErrorResponse.t :=
  {| HttpErrorResponse.error := event;
     HttpErrorResponse.status := 0;
     HttpErrorResponse.message := failureMessage 0 |}.

(** One POST: what the caller observes, and the table afterwards.  The
    server handles every request that reaches it, whether or not its
    reply finds the way back. *)
Definition post (net : Transport) (w : World) (db : Pg.Database) (data : JsValue)
  : (Body + HttpErrorResponse.t) * Pg.Database :=
  match net with
  | RequestLost event => (inr (noReply event), db)
  | ReplyLost event =>
      let (_, db') := checkEligibility coerceDate w db data in
      (inr (noReply event), db')
  | Delivered =>
      let (r, db') := checkEligibility coerceDate w db data in
      (received r, db')
  end.

(** [checkEligibility(data)]: the POST, sent again once if it fails in any
    way ([retry(1)]), then [catchError(this.handleError)].  [net1], [w1]
    and [net2], [w2] are the network and the server's surroundings at the
    two attempts. *)
Definition checkEligibility (net1 net2 : Transport) (w1 w2 : World)
           (db : Pg.Database) (data : JsValue)
  : (Body + string) * Pg.Database :=
  let (o1, db1) := post net1 w1 db data in
  match o1 with
  | inl response => (inl response, db1)
  | inr _ =>
      let (o2, db2) := post net2 w2 db1 data in
      match o2 with
      | inl response => (inl response, db2)
      | inr e => (inr (handleError e), db2)
      end
  end.

End Http.

End EligibilityService.

(* ================================================================== *)
(** ** A date conversion to run the examples with *)
(* ================================================================== *)

(** Plain calendar dates [YYYY-MM-DD], read as midnight UTC as the ISO
    parser reads them.  It stands in for [coerceDate] in the examples; the
    theorems hold for every conversion. *)
Module Sample.

Definition digit (c : N) : option Z :=
  if ((48 <=? c) && (c <=? 57))%N then Some (Z.of_N c - 48) else None.

Definition calendarDate (s : jsstring) : option JsDate.t :=
  match s with
  | [y1; y2; y3; y4; 45%N; m1; m2; 45%N; d1; d2] =>
      match digit y1, digit y2, digit y3, digit y4,
            digit m1, digit m2, digit d1, digit d2 with
      | Some a, Some b, Some c, Some d, Some e, Some f, Some g, Some h =>
          let y := 1000 * a + 100 * b + 10 * c + d in
          let m := 10 * e + f in
          let dd := 10 * g + h in
          if (1 <=? m) && (m <=? 12) && (1 <=? dd) && (dd <=? JsDate.DaysInMonth y (m - 1))
          then Some (JsDate.UTC y (m - 1) dd)
          else None
      | _, _, _, _, _, _, _, _ => None
      end
  | _ => None
  end.

Definition coerceDate (format : option string) (v : JsValue) : option JsDate.t :=
  match v with
  | JString s => calendarDate s
  | _ => None
  end.

Definition str (s : string) : JsValue := JString (JsString.of_string s).

(** A request body with the three fields of the form. *)
Definition request (firstName lastName dateOfBirth : string) : JsValue :=
  JObject [ ("firstName"%string, str firstName);
            ("lastName"%string, str lastName);
            ("dateOfBirth"%string, str dateOfBirth) ].

(** A server in UTC, at noon of 15 June 2024, with a reachable store. *)
Definition world : World :=
  {| NODE_ENV := Some "production"%string;
     LocalTZA := JsDate.fixed 0;
     clock := JsDate.UTC 2024 5 15 + 43200000;
     elapsed := 3;
     NOW := JsDate.UTC 2024 5 15 + 43200007;
     storageFault := None |}.

Definition withFault (e : JsError) : World :=
  {| NODE_ENV := NODE_ENV world; LocalTZA := LocalTZA world;
     clock := clock world; elapsed := elapsed world; NOW := NOW world;
     storageFault := Some e |}.

End Sample.

(* ================================================================== *)
(** ** Vocabulary of the properties *)
(* ================================================================== *)

(** (month, day) pairs in calendar order. *)
Definition precedes (a b : Z * Z) : Prop :=
  fst a < fst b \/ (fst a = fst b /\ snd a < snd b).

(** The local time at which someone born on the calendar date
    [(y, m, d)] turns [n]: midnight of the (month, day) of birth in the
    year [y + n], and midnight of 1 March when that year has no such day
    (a birth on 29 February, a common year). *)
Definition turns (y m d n : Z) : Z :=
  if d <=? JsDate.DaysInMonth (y + n) m then JsDate.UTC (y + n) m d
  else JsDate.UTC (y + n) 2 1.

(** The preferences under which Joi reports every violated rule. *)
Definition exhaustive : Joi.Prefs := {| Joi.abortEarly := false |}.

(** A key of an object schema with the value Joi's conversion leaves
    under it, and what it means for the key to raise no error. *)
Definition converted (coerceDate : option string -> JsValue -> option JsDate.t)
           (prefs : Joi.Prefs) (now : Z)
           (props : list (string * JsValue)) (ks : string * Joi.Schema)
  : string * JsValue :=
  (fst ks,
   fst (Joi.validateValue coerceDate prefs now (snd ks) (fst ks) (get props (fst ks)))).

Definition accepted (coerceDate : option string -> JsValue -> option JsDate.t)
           (prefs : Joi.Prefs) (now : Z)
           (props : list (string * JsValue)) (ks : string * Joi.Schema) : Prop :=
  snd (Joi.validateValue coerceDate prefs now (snd ks) (fst ks) (get props (fst ks))) = [].

(** The errors Joi raises for one key of an object schema. *)
Definition fieldErrors (coerceDate : option string -> JsValue -> option JsDate.t)
           (prefs : Joi.Prefs) (now : Z)
           (props : list (string * JsValue)) (ks : string * Joi.Schema)
  : list Joi.Detail :=
  snd (Joi.validateValue coerceDate prefs now (snd ks) (fst ks) (get props (fst ks))).

(** What the two name rules of [userSchema] accept. *)
Definition validName (s : jsstring) : Prop :=
  (1 <= JsString.length s <= 50)%nat /\ nameRegex s = true.

(** The value a successful validation hands to the handler. *)
Definition validated (n1 n2 : jsstring) (tv : JsDate.t) : JsValue :=
  JObject [ ("firstName"%string, JString n1);
            ("lastName"%string, JString n2);
            ("dateOfBirth"%string, JDate tv) ].

Definition noLeadingSpace (s : jsstring) : Prop :=
  match s with
  | [] => True
  | c :: _ => JsString.isWhiteSpace c = false
  end.

Definition hasVisibleChar (s : jsstring) : bool :=
  existsb (fun c => negb (JsString.isWhiteSpace c)) s.

(** A stored name [stored] for a submitted name [raw]: the trimmed
    submission, at most 50 code units of the character class of the
    pattern, with nothing left to trim, and not empty when the submission
    has a character that is not white space. *)
Definition normalizedName (raw stored : jsstring) : Prop :=
  stored = JsString.trim raw
  /\ (JsString.length stored <= 50)%nat
  /\ forallb nameChar stored = true
  /\ JsString.trim stored = stored
  /\ (hasVisibleChar raw = true -> (1 <= JsString.length stored)%nat).


(** [message || 'Internal Server Error']: the text of a reply whose error
    is not one of the PostgreSQL driver. *)
Definition messageOrDefault (m : string) : string :=
  match m with
  | EmptyString => "Internal Server Error"
  | String _ _ => m
  end.

(** The generic reply to an error of the PostgreSQL driver, by SQLSTATE. *)
Definition driverErrorReply (sqlstate : string) : Response :=
  if String.eqb sqlstate "23505" then
    {| status := 409; body := Failure false "Duplicate entry" None |}
  else if String.eqb sqlstate "23503" then
    {| status := 400; body := Failure false "Foreign key constraint violation" None |}
  else if String.eqb sqlstate "23502" then
    {| status := 400; body := Failure false "Required field missing" None |}
  else
    {| status := 500; body := Failure false "Database error" None |}.

(** The tables the check-eligibility route can build, starting from the
    empty table that [init.sql] creates. *)
Inductive reachable (coerceDate : option string -> JsValue -> option JsDate.t)
  : Pg.Database -> Prop :=
| reachable_empty : reachable coerceDate Pg.empty
| reachable_call (w : World) (db : Pg.Database) (reqBody : JsValue) :
    reachable coerceDate db ->
    reachable coerceDate (snd (checkEligibility coerceDate w db reqBody)).

(** The constraints the table declares on a row, and what the handler
    adds to them. *)
Definition rowConstraints (r : Pg.Row) : Prop :=
  (JsString.length (Pg.first_name r) <= 50)%nat
  /\ (JsString.length (Pg.last_name r) <= 50)%nat
  /\ 0 <= Pg.age r <= 150.

(** Whether the network lost the reply to a request the server handled. *)
Definition lostReply (net : EligibilityService.Transport) : bool :=
  match net with
  | EligibilityService.ReplyLost _ => true
  | _ => false
  end.

(** Whether a reply is the 201 eligibility body. *)
Definition isCreated (r : Response) : bool :=
  match body r with
  | Eligibility _ _ _ _ _ => true
  | _ => false
  end.

(** Identifiers in the order of insertion, each larger than the one
    before. *)
Fixpoint increasing (l : list Z) : Prop :=
  match l with
  | [] => True
  | x :: rest => (forall y, In y rest -> x < y) /\ increasing rest
  end.

(** The first property of a request body that [userSchema] does not name. *)
Definition firstUnknown (props : list (string * JsValue)) : option string :=
  option_map fst (hd_error (filter (fun kv => negb (Joi.isKey userSchema (fst kv))) props)).

(** A detail that is not the one of a [min] rule. *)
Definition notMinError (d : Joi.Detail) : Prop :=
  Joi.type d <> "string.min"%string
  /\ Joi.message d <> Joi.Custom "First name must be at least 1 character long"
  /\ Joi.message d <> Joi.Custom "Last name must be at least 1 character long".

(** Requests and tables to run the further examples with. *)
Module Scenario.

Definition john : JsValue := Sample.request "John" "Doe" "1990-01-01".

Definition jane : JsValue := Sample.request "Jane" "Doe" "2010-01-01".

Definition afterJohn : Pg.Database :=
  snd (checkEligibility Sample.coerceDate Sample.world Pg.empty john).

Definition longName : string :=
  "Maximilian-Alexander-Bartholomew-Christopher-Davenport".

End Scenario.

(* ================================================================== *)
(** * Properties *)
(* ================================================================== *)

(** ** The calendar *)

Example getFullYear_epoch : JsDate.getFullYear (JsDate.fixed 0) 0 = 1970.
Proof. reflexivity. Qed.

Example getters_2024_leap_day :
  let d := JsDate.UTC 2024 1 29 in
  (JsDate.getFullYear (JsDate.fixed 0) d, JsDate.getMonth (JsDate.fixed 0) d, JsDate.getDate (JsDate.fixed 0) d) = (2024, 1, 29).
Proof. vm_compute. reflexivity. Qed.

Example getters_1969_new_years_eve :
  (JsDate.getFullYear (JsDate.fixed 0) (-1), JsDate.getMonth (JsDate.fixed 0) (-1), JsDate.getDate (JsDate.fixed 0) (-1))
  = (1969, 11, 31).
Proof. vm_compute. reflexivity. Qed.

Example getters_2000_march_first :
  let d := JsDate.UTC 2000 2 1 in
  (JsDate.getFullYear (JsDate.fixed 0) d, JsDate.getMonth (JsDate.fixed 0) d, JsDate.getDate (JsDate.fixed 0) d) = (2000, 2, 1).
Proof. vm_compute. reflexivity. Qed.

Example getters_local_zone :
  (* 2024-01-01T02:00Z seen from a zone five hours behind UTC *)
  let d := JsDate.UTC 2024 0 1 + 7200000 in
  (JsDate.getFullYear (JsDate.fixed (-18000000)) d,
   JsDate.getMonth (JsDate.fixed (-18000000)) d,
   JsDate.getDate (JsDate.fixed (-18000000)) d) = (2023, 11, 31).
Proof. vm_compute. reflexivity. Qed.

Example calendarDate_sample :
  Sample.calendarDate (JsString.of_string "1990-01-01") = Some (JsDate.UTC 1990 0 1).
Proof. vm_compute. reflexivity. Qed.

(** Names the quotient and remainder of a division by a positive constant
    and records the two facts that determine them. *)
Ltac div_facts x n :=
  let q := fresh "q" in
  let r := fresh "r" in
  pose proof (Z.div_mod x n ltac:(lia));
  pose proof (Z.mod_pos_bound x n ltac:(lia));
  set (q := x / n) in *; set (r := x mod n) in *; clearbody q r.

(** The twelve cases of a month number. *)
Ltac month_cases m :=
  let Hc := fresh "Hc" in
  assert (m = 0 \/ m = 1 \/ m = 2 \/ m = 3 \/ m = 4 \/ m = 5 \/ m = 6 \/ m = 7
          \/ m = 8 \/ m = 9 \/ m = 10 \/ m = 11) as Hc by lia;
  repeat (destruct Hc as [->|Hc]); [..|subst m].

Module JsDateFacts.
Import JsDate.

Lemma DayFromYear_mono (y1 y2 : Z) :
  y1 <= y2 -> DayFromYear y1 <= DayFromYear y2.
Proof.
  intros Hy. unfold DayFromYear.
  div_facts (y1 - 1969) 4. div_facts (y1 - 1901) 100. div_facts (y1 - 1601) 400.
  div_facts (y2 - 1969) 4. div_facts (y2 - 1901) 100. div_facts (y2 - 1601) 400.
  lia.
Qed.

Lemma estimate_below (d e : Z) :
  146097 * (e - 1970) <= 400 * d -> DayFromYear (e - 1) <= d.
Proof.
  intros He. unfold DayFromYear.
  div_facts (e - 1 - 1969) 4. div_facts (e - 1 - 1901) 100.
  div_facts (e - 1 - 1601) 400. lia.
Qed.

Lemma estimate_above (d e : Z) :
  400 * d < 146097 * (e - 1970) + 146097 -> d < DayFromYear (e + 1 + 1).
Proof.
  intros He. unfold DayFromYear.
  div_facts (e + 1 + 1 - 1969) 4. div_facts (e + 1 + 1 - 1901) 100.
  div_facts (e + 1 + 1 - 1601) 400. lia.
Qed.

(** [YearFromDay] is the year of ECMA-262's YearFromTime: the one whose
    first day is the last not after [d]. *)
Lemma YearFromDay_spec (d : Z) :
  DayFromYear (YearFromDay d) <= d < DayFromYear (YearFromDay d + 1).
Proof.
  unfold YearFromDay.
  set (e := 1970 + 400 * d / 146097).
  assert (He : 146097 * (e - 1970) <= 400 * d < 146097 * (e - 1970) + 146097).
  { subst e. div_facts (400 * d) 146097. lia. }
  clearbody e.
  destruct (Z.ltb_spec d (DayFromYear e)) as [H1|H1].
  - replace (e - 1 + 1) with e by lia. split; [|lia].
    apply estimate_below; lia.
  - destruct (Z.leb_spec (DayFromYear (e + 1)) d) as [H2|H2]; [|lia].
    split; [lia|]. apply estimate_above; lia.
Qed.

Lemma YearFromDay_mono (d1 d2 : Z) :
  d1 <= d2 -> YearFromDay d1 <= YearFromDay d2.
Proof.
  intros Hd.
  destruct (Z.le_gt_cases (YearFromDay d1) (YearFromDay d2)) as [|Hgt]; [assumption|].
  pose proof (YearFromDay_spec d1) as [L1 _].
  pose proof (YearFromDay_spec d2) as [_ U2].
  pose proof (DayFromYear_mono (YearFromDay d2 + 1) (YearFromDay d1) ltac:(lia)).
  lia.
Qed.

(** Within one year, (month, date) follows the day in the year. *)
Lemma month_date_mono (d1 d2 : Z) :
  d1 <= d2 -> YearFromDay d1 = YearFromDay d2 ->
  MonthFromDay d1 < MonthFromDay d2
  \/ (MonthFromDay d1 = MonthFromDay d2 /\ DateFromDay d1 <= DateFromDay d2).
Proof.
  intros Hd Hy.
  assert (Hw : DayWithinYear d1 <= DayWithinYear d2)
    by (unfold DayWithinYear; rewrite Hy; lia).
  unfold DateFromDay, MonthFromDay. rewrite <- Hy.
  set (w1 := DayWithinYear d1) in *. set (w2 := DayWithinYear d2) in *.
  set (l := InLeapYear (YearFromDay d1)). clearbody w1 w2 l. cbv zeta.
  repeat match goal with
         | |- context [?a <? ?b] => destruct (Z.ltb_spec a b)
         end; cbv iota; lia.
Qed.

(** The calendar fields grow with the day number, lexicographically. *)
Lemma calendar_mono (d1 d2 : Z) :
  d1 <= d2 ->
  YearFromDay d1 < YearFromDay d2
  \/ (YearFromDay d1 = YearFromDay d2
      /\ (MonthFromDay d1 < MonthFromDay d2
          \/ (MonthFromDay d1 = MonthFromDay d2 /\ DateFromDay d1 <= DateFromDay d2))).
Proof.
  intros Hd. pose proof (YearFromDay_mono d1 d2 Hd) as Hy.
  destruct (Z.eq_dec (YearFromDay d1) (YearFromDay d2)) as [E|N]; [|lia].
  right. split; [assumption|]. now apply month_date_mono.
Qed.

Lemma DayFromYear_succ (y : Z) :
  DayFromYear (y + 1) = DayFromYear y + DaysInYear y.
Proof.
  unfold DayFromYear, DaysInYear.
  div_facts (y + 1 - 1969) 4. div_facts (y + 1 - 1901) 100. div_facts (y + 1 - 1601) 400.
  div_facts (y - 1969) 4. div_facts (y - 1901) 100. div_facts (y - 1601) 400.
  div_facts y 4. div_facts y 100. div_facts y 400.
  destruct (Z.eqb_spec r5 0), (Z.eqb_spec r6 0), (Z.eqb_spec r7 0); cbn [negb]; lia.
Qed.

Lemma YearFromDay_unique (d y : Z) :
  DayFromYear y <= d < DayFromYear (y + 1) -> YearFromDay d = y.
Proof.
  intros [L U]. pose proof (YearFromDay_spec d) as [L' U'].
  destruct (Z.lt_trichotomy (YearFromDay d) y) as [H|[H|H]]; [|exact H|].
  - pose proof (DayFromYear_mono (YearFromDay d + 1) y ltac:(lia)). lia.
  - pose proof (DayFromYear_mono (y + 1) (YearFromDay d) ltac:(lia)). lia.
Qed.

Lemma InLeapYear_spec (y : Z) :
  DaysInYear y = 365 + InLeapYear y /\ 0 <= InLeapYear y <= 1.
Proof.
  unfold InLeapYear, DaysInYear.
  destruct (negb (y mod 4 =? 0)), (negb (y mod 100 =? 0)), (negb (y mod 400 =? 0));
    cbn; lia.
Qed.

(** The day number of a local time within the 24 hours of a calendar
    date. *)
Lemma Day_within (y m d lt : Z) :
  UTC y m d <= lt < UTC y m d + msPerDay ->
  Day lt = DayFromYear y + monthStart y m + (d - 1).
Proof.
  unfold UTC, Day, msPerDay. intros H.
  set (D := DayFromYear y + monthStart y m + (d - 1)) in *. clearbody D.
  symmetry. apply Z.div_unique with (r := lt - D * 86400000); lia.
Qed.

(** The calendar fields of the day number of a calendar date. *)
Lemma calendar_fields (y m d : Z) :
  0 <= m <= 11 -> 1 <= d <= DaysInMonth y m ->
  let day := DayFromYear y + monthStart y m + (d - 1) in
  YearFromDay day = y /\ MonthFromDay day = m /\ DateFromDay day = d.
Proof.
  intros Hm Hd. cbv zeta.
  destruct (InLeapYear_spec y) as [Hl Hl'].
  set (day := DayFromYear y + monthStart y m + (d - 1)).
  assert (Hms : 0 <= monthStart y m + (d - 1) < DaysInYear y).
  { rewrite Hl. unfold DaysInMonth, monthStart in *.
    set (l := InLeapYear y) in *. clearbody l.
    month_cases m; cbv beta iota in Hd |- *; lia. }
  assert (Hy : YearFromDay day = y).
  { apply YearFromDay_unique. rewrite DayFromYear_succ. subst day. lia. }
  unfold DateFromDay, MonthFromDay, DayWithinYear. rewrite Hy.
  replace (day - DayFromYear y) with (monthStart y m + (d - 1)) by (subst day; lia).
  split; [reflexivity|].
  unfold DaysInMonth, monthStart in *.
  set (l := InLeapYear y) in *. clearbody l. clear Hms Hy day Hl.
  month_cases m; cbv beta iota in Hd |- *;
    repeat match goal with
           | |- context [?a <? ?b] => destruct (Z.ltb_spec a b); try lia
           end; cbv iota; split; lia.
Qed.

(** The getters read back the calendar date whose 24 hours the local
    time of the instant falls in. *)
Lemma getters_local (zone : Z -> Z) (tv y m d : Z) :
  0 <= m <= 11 -> 1 <= d <= DaysInMonth y m ->
  UTC y m d <= LocalTime zone tv < UTC y m d + msPerDay ->
  getFullYear zone tv = y /\ getMonth zone tv = m /\ getDate zone tv = d.
Proof.
  intros Hm Hd Hlt. unfold getFullYear, getMonth, getDate.
  rewrite (Day_within y m d _ Hlt). now apply calendar_fields.
Qed.

(** In UTC the getters read back the calendar date a time value was made
    from. *)
Lemma getters_UTC (y m d : Z) :
  0 <= m <= 11 -> 1 <= d <= DaysInMonth y m ->
  getFullYear (fixed 0) (UTC y m d) = y
  /\ getMonth (fixed 0) (UTC y m d) = m
  /\ getDate (fixed 0) (UTC y m d) = d.
Proof.
  intros Hm Hd. apply getters_local; try assumption.
  unfold LocalTime, fixed, msPerDay. lia.
Qed.

(** Every time value falls in one of the twelve months, on one of its
    days. *)
Lemma getters_range (tza : Z -> Z) (tv : Z) :
  0 <= getMonth tza tv <= 11
  /\ 1 <= getDate tza tv <= DaysInMonth (getFullYear tza tv) (getMonth tza tv).
Proof.
  unfold getMonth, getDate, getFullYear.
  set (d := Day (LocalTime tza tv)). clearbody d.
  pose proof (YearFromDay_spec d) as Hs. rewrite DayFromYear_succ in Hs.
  destruct (InLeapYear_spec (YearFromDay d)) as [Hl Hl'].
  unfold DateFromDay, MonthFromDay, DaysInMonth, DayWithinYear.
  set (w := d - DayFromYear (YearFromDay d)).
  assert (Hw : 0 <= w < 365 + InLeapYear (YearFromDay d)) by (subst w; lia).
  set (l := InLeapYear (YearFromDay d)) in *. clearbody w l. cbv zeta.
  repeat match goal with
         | |- context [?a <? ?b] => destruct (Z.ltb_spec a b)
         end; cbv iota; lia.
Qed.

Lemma Day_mono (lt1 lt2 : Z) : lt1 <= lt2 -> Day lt1 <= Day lt2.
Proof.
  intros H. unfold Day, msPerDay. apply Z.div_le_mono; lia.
Qed.

(** A local time is on or after a day exactly from the midnight that
    begins the day. *)
Lemma Day_ge (day lt : Z) : day <= Day lt <-> day * msPerDay <= lt.
Proof.
  unfold Day, msPerDay. div_facts lt 86400000. lia.
Qed.

(** A day number is determined by its calendar fields. *)
Lemma Day_of_fields (day : Z) :
  day = DayFromYear (YearFromDay day)
        + monthStart (YearFromDay day) (MonthFromDay day) + (DateFromDay day - 1).
Proof.
  pose proof (YearFromDay_spec day) as Hs. rewrite DayFromYear_succ in Hs.
  destruct (InLeapYear_spec (YearFromDay day)) as [Hl Hl'].
  unfold DateFromDay, MonthFromDay, monthStart, DayWithinYear.
  set (w := day - DayFromYear (YearFromDay day)).
  assert (Hw : day = DayFromYear (YearFromDay day) + w) by (subst w; lia).
  rewrite Hw at 1.
  set (l := InLeapYear (YearFromDay day)) in *. clearbody w l. cbv zeta.
  repeat match goal with
         | |- context [?a <? ?b] => destruct (Z.ltb_spec a b)
         end; cbv iota; lia.
Qed.

(** A day is on or after a calendar date exactly when its calendar fields
    are: a later year, or the same year and a (month, day) that does not
    precede the one of the date. *)
Lemma on_or_after (y m d day : Z) :
  0 <= m <= 11 -> 1 <= d <= DaysInMonth y m ->
  DayFromYear y + monthStart y m + (d - 1) <= day
  <-> (y < YearFromDay day
       \/ (y = YearFromDay day
           /\ ~ (MonthFromDay day < m \/ (MonthFromDay day = m /\ DateFromDay day < d)))).
Proof.
  intros Hm Hd. destruct (calendar_fields y m d Hm Hd) as (Y & M & D).
  set (day0 := DayFromYear y + monthStart y m + (d - 1)) in *.
  split.
  - intros Hle. pose proof (calendar_mono day0 day Hle) as Hc.
    rewrite Y, M, D in Hc. lia.
  - intros Hf. destruct (Z.le_gt_cases day0 day) as [|Hgt]; [assumption|exfalso].
    pose proof (calendar_mono day day0 ltac:(lia)) as Hc. rewrite Y, M, D in Hc.
    assert (E : YearFromDay day = y /\ MonthFromDay day = m /\ DateFromDay day = d) by lia.
    destruct E as (E1 & E2 & E3).
    pose proof (Day_of_fields day) as Hday. rewrite E1, E2, E3 in Hday.
    subst day0. lia.
Qed.

End JsDateFacts.

(** ** [calculateAge] *)

Example calculateAge_birthday_passed :
  calculateAge (JsDate.fixed 0) (JsDate.UTC 2024 5 15) (JsDate.UTC 1990 0 1) = 34.
Proof. vm_compute. reflexivity. Qed.

Example calculateAge_birthday_to_come :
  calculateAge (JsDate.fixed 0) (JsDate.UTC 2024 5 15) (JsDate.UTC 1990 11 25) = 33.
Proof. vm_compute. reflexivity. Qed.

Example calculateAge_on_the_birthday :
  calculateAge (JsDate.fixed 0) (JsDate.UTC 2024 5 15) (JsDate.UTC 2006 5 15) = 18
  /\ calculateAge (JsDate.fixed 0) (JsDate.UTC 2024 5 14) (JsDate.UTC 2006 5 15) = 17.
Proof. vm_compute. split; reflexivity. Qed.

Example calculateAge_leap_day_birth :
  (* born on 29 February: 28 February of a common year is before the
     birthday, 1 March is after it *)
  calculateAge (JsDate.fixed 0) (JsDate.UTC 2023 1 28) (JsDate.UTC 2000 1 29) = 22
  /\ calculateAge (JsDate.fixed 0) (JsDate.UTC 2023 2 1) (JsDate.UTC 2000 1 29) = 23.
Proof. vm_compute. split; reflexivity. Qed.

Lemma calculateAge_eq (tza : Z -> Z) (today birthDate : Z) :
  let years := JsDate.getFullYear tza today - JsDate.getFullYear tza birthDate in
  let asOf := (JsDate.getMonth tza today, JsDate.getDate tza today) in
  let birth := (JsDate.getMonth tza birthDate, JsDate.getDate tza birthDate) in
  (precedes asOf birth -> calculateAge tza today birthDate = years - 1)
  /\ (~ precedes asOf birth -> calculateAge tza today birthDate = years).
Proof.
  unfold calculateAge, precedes. cbn [fst snd].
  set (mt := JsDate.getMonth tza today). set (mb := JsDate.getMonth tza birthDate).
  set (dt := JsDate.getDate tza today). set (db := JsDate.getDate tza birthDate).
  destruct (Z.ltb_spec (mt - mb) 0); destruct (Z.eqb_spec (mt - mb) 0);
    destruct (Z.ltb_spec dt db); cbn [orb andb]; split; intros; lia.
Qed.

(** A date of birth submitted as a calendar date is the instant of
    midnight UTC of that date; a server whose offset at that instant is
    from 0 to less than a day reads the date back. *)
Lemma getters_birth (zone : Z -> Z) (y m d : Z) :
  0 <= m <= 11 -> 1 <= d <= JsDate.DaysInMonth y m ->
  0 <= zone (JsDate.UTC y m d) < JsDate.msPerDay ->
  JsDate.getFullYear zone (JsDate.UTC y m d) = y
  /\ JsDate.getMonth zone (JsDate.UTC y m d) = m
  /\ JsDate.getDate zone (JsDate.UTC y m d) = d.
Proof.
  intros Hm Hd Hz. apply JsDateFacts.getters_local; try assumption.
  unfold JsDate.LocalTime. lia.
Qed.




(** Someone whose instant of birth the server's clock reads no later
    than the reference instant has an age that is not negative. *)
Lemma calculateAge_nonneg (tza : Z -> Z) (today birthDate : Z) :
  JsDate.LocalTime tza birthDate <= JsDate.LocalTime tza today ->
  0 <= calculateAge tza today birthDate.
Proof.
  intros Hle. unfold calculateAge, JsDate.getFullYear, JsDate.getMonth, JsDate.getDate.
  pose proof (JsDateFacts.calendar_mono _ _ (JsDateFacts.Day_mono _ _ Hle)) as Hc.
  set (d1 := JsDate.Day (JsDate.LocalTime tza birthDate)) in *.
  set (d2 := JsDate.Day (JsDate.LocalTime tza today)) in *.
  destruct (Z.ltb_spec (JsDate.MonthFromDay d2 - JsDate.MonthFromDay d1) 0);
    destruct (Z.eqb_spec (JsDate.MonthFromDay d2 - JsDate.MonthFromDay d1) 0);
    destruct (Z.ltb_spec (JsDate.DateFromDay d2) (JsDate.DateFromDay d1));
    cbn [orb andb]; lia.
Qed.

(** When the calendar day of birth is after the reference day, the result
    is negative: the function has no other answer to give. *)
Lemma calculateAge_negative (tza : Z -> Z) (today birthDate : Z) :
  JsDate.getFullYear tza today < JsDate.getFullYear tza birthDate
  \/ (JsDate.getFullYear tza today = JsDate.getFullYear tza birthDate
      /\ precedes (JsDate.getMonth tza today, JsDate.getDate tza today)
                  (JsDate.getMonth tza birthDate, JsDate.getDate tza birthDate)) ->
  calculateAge tza today birthDate < 0.
Proof.
  intros H. destruct (calculateAge_eq tza today birthDate) as [Hp Hn]. cbv zeta in *.
  destruct H as [Hy|[Hy Hmd]].
  - unfold calculateAge.
    destruct (_ || _); lia.
  - rewrite (Hp Hmd). lia.
Qed.

(** C3, as stated, fails on [calculateAge]: for a birth date one year
    after the reference instant the function returns -1. *)
Lemma calculateAge_future_birth_negative :
  let today := JsDate.UTC 2024 5 15 in
  let birthDate := JsDate.UTC 2025 5 15 in
  today < birthDate /\ calculateAge (JsDate.fixed 0) today birthDate = -1.
Proof. vm_compute. split; reflexivity. Qed.

(** The clock of a zone that leaves daylight time at 00:01 (the rule of
    Newfoundland until 2011: two and a half hours behind UTC before the
    instant [change], three and a half after it). *)
Example calculateAge_clock_set_back :
  let change := JsDate.UTC 2006 9 29 + 9060000 in
  let zone := fun tv => if tv <? change then -9000000 else -12600000 in
  let birthDate := JsDate.UTC 2006 9 29 + 9030000 in
  let today := JsDate.UTC 2006 9 29 + 9900000 in
  birthDate <= today
  /\ calculateAge zone birthDate birthDate = 0
  /\ calculateAge zone today birthDate = -1.
Proof. vm_compute. repeat split; discriminate || reflexivity. Qed.

(** ** [trim] *)

Module JsStringFacts.
Import JsString.

(** [trimStart] splits a string into the white space it drops and the
    rest. *)
Lemma trimStart_split (s : t) :
  exists p, s = p ++ trimStart s /\ forallb isWhiteSpace p = true.
Proof.
  induction s as [|c s (p & Hs & Hp)]; [exists []; auto|].
  cbn [trimStart]. destruct (isWhiteSpace c) eqn:Hc.
  - exists (c :: p). cbn. rewrite Hc, Hp. split; [congruence|reflexivity].
  - exists []. auto.
Qed.

Lemma trimStart_noLeadingSpace (s : t) : noLeadingSpace (trimStart s).
Proof.
  induction s as [|c s IH]; cbn; [exact I|].
  destruct (isWhiteSpace c) eqn:Hc; [exact IH|exact Hc].
Qed.

Lemma trimStart_fixed (s : t) : noLeadingSpace s -> trimStart s = s.
Proof.
  destruct s as [|c s]; cbn; [reflexivity|]. intros ->. reflexivity.
Qed.

Lemma trimEnd_split (s : t) :
  exists p, s = trimEnd s ++ p /\ forallb isWhiteSpace p = true.
Proof.
  unfold trimEnd. destruct (trimStart_split (rev s)) as (p & Hs & Hp).
  exists (rev p). split.
  - rewrite <- rev_app_distr, <- Hs, rev_involutive. reflexivity.
  - rewrite forallb_forall in *. intros x Hx. apply Hp, in_rev. exact Hx.
Qed.

(** The trimmed string sits inside the original between two runs of
    white space. *)
Lemma trim_split (s : t) :
  exists p q, s = p ++ trim s ++ q
              /\ forallb isWhiteSpace p = true /\ forallb isWhiteSpace q = true.
Proof.
  unfold trim. destruct (trimStart_split s) as (p & Hs & Hp).
  destruct (trimEnd_split (trimStart s)) as (q & Ht & Hq).
  exists p, q. rewrite <- Ht. auto.
Qed.

Lemma trim_length (s : t) : (length (trim s) <= length s)%nat.
Proof.
  destruct (trim_split s) as (p & q & Hs & _).
  unfold length. rewrite Hs at 2. rewrite !length_app. lia.
Qed.

Lemma trim_forallb (P : N -> bool) (s : t) :
  forallb P s = true -> forallb P (trim s) = true.
Proof.
  destruct (trim_split s) as (p & q & Hs & _). intros H.
  rewrite Hs, !forallb_app in H.
  apply andb_prop in H as [_ H]. apply andb_prop in H as [H _]. exact H.
Qed.

Lemma trimEnd_noLeadingSpace (s : t) : noLeadingSpace s -> noLeadingSpace (trimEnd s).
Proof.
  destruct (trimEnd_split s) as (p & Hs & _).
  destruct (trimEnd s) as [|c r]; [intros; exact I|].
  rewrite Hs. cbn. auto.
Qed.

(** Trimming leaves nothing to trim. *)
Lemma trim_idempotent (s : t) : trim (trim s) = trim s.
Proof.
  unfold trim at 1.
  rewrite (trimStart_fixed (trim s)).
  2:{ unfold trim. apply trimEnd_noLeadingSpace, trimStart_noLeadingSpace. }
  unfold trim, trimEnd. rewrite rev_involutive.
  rewrite (trimStart_fixed (trimStart _)) by apply trimStart_noLeadingSpace.
  reflexivity.
Qed.

(** A string with a character that is not white space keeps it. *)
Lemma trim_nonempty (s : t) :
  hasVisibleChar s = true -> (1 <= length (trim s))%nat.
Proof.
  destruct (trim_split s) as (p & q & Hs & Hp & Hq). intros H.
  destruct (trim s) as [|c r]; [|cbn; lia].
  exfalso. rewrite Hs in H. cbn [app] in H.
  apply existsb_exists in H as (x & Hin & Hx).
  rewrite forallb_forall in Hp, Hq.
  apply in_app_or in Hin as [Hin|Hin];
    [rewrite (Hp x Hin) in Hx|rewrite (Hq x Hin) in Hx]; discriminate.
Qed.

Example trim_sample :
  trim (of_string "  Mary Ann ") = of_string "Mary Ann".
Proof. reflexivity. Qed.

Example trim_blank : trim (of_string "   ") = [].
Proof. reflexivity. Qed.

End JsStringFacts.

(** ** The schema *)

Section JoiFacts.

Variable coerceDate : option string -> JsValue -> option JsDate.t.
Variable now : Z.

(** Under the default preferences Joi reports the first of the errors
    it would report exhaustively. *)
Lemma runRules_abortEarly (rs : list Joi.Rule) (v : JsValue) :
  Joi.runRules Joi.defaults now rs v
  = firstn 1 (Joi.runRules exhaustive now rs v).
Proof.
  induction rs as [|r rs IH]; cbn; [reflexivity|].
  destruct (Joi.ruleError now r v); [reflexivity|exact IH].
Qed.

Lemma validateValue_abortEarly (s : Joi.Schema) (label : string) (v : JsValue) :
  Joi.validateValue coerceDate Joi.defaults now s label v
  = (fst (Joi.validateValue coerceDate exhaustive now s label v),
     firstn 1 (snd (Joi.validateValue coerceDate exhaustive now s label v))).
Proof.
  unfold Joi.validateValue.
  destruct v; try (destruct (Joi.presenceRequired s); reflexivity);
    (destruct (Joi.base coerceDate s _); cbn [fst snd]; [|reflexivity];
     rewrite runRules_abortEarly, firstn_map; reflexivity).
Qed.

Lemma validateKeys_abortEarly (keys : Joi.ObjectSchema) props :
  snd (Joi.validateKeys coerceDate Joi.defaults now keys props)
  = firstn 1 (snd (Joi.validateKeys coerceDate exhaustive now keys props)).
Proof.
  induction keys as [|[k s] keys IH]; cbn [Joi.validateKeys]; [reflexivity|].
  rewrite validateValue_abortEarly.
  destruct (Joi.validateValue coerceDate exhaustive now s k (get props k)) as [v errs].
  cbn [fst snd]. destruct errs as [|e errs]; cbn [firstn].
  - destruct (Joi.validateKeys coerceDate Joi.defaults now keys props).
    destruct (Joi.validateKeys coerceDate exhaustive now keys props).
    exact IH.
  - cbn. destruct (Joi.validateKeys coerceDate exhaustive now keys props).
    reflexivity.
Qed.

Lemma validate_abortEarly (keys : Joi.ObjectSchema) (input : JsValue) :
  Joi.error (Joi.validate coerceDate Joi.defaults now keys input)
  = option_map (firstn 1)
      (Joi.error (Joi.validate coerceDate exhaustive now keys input)).
Proof.
  destruct input; try reflexivity.
  unfold Joi.validate.
  pose proof (validateKeys_abortEarly keys props) as Hk.
  destruct (Joi.validateKeys coerceDate Joi.defaults now keys props) as [vs1 e1].
  destruct (Joi.validateKeys coerceDate exhaustive now keys props) as [vs2 e2].
  cbn [snd] in Hk. subst e1. cbn [Joi.abortEarly Joi.defaults exhaustive].
  destruct e2 as [|e es]; cbn [firstn app].
  - destruct (Joi.unknownKeys keys props) as [|u us]; reflexivity.
  - reflexivity.
Qed.

(** Exhaustively, Joi reports the errors of the keys in the order of the
    schema, then the properties the schema does not know. *)
Lemma validateKeys_exhaustive (keys : Joi.ObjectSchema) props :
  snd (Joi.validateKeys coerceDate exhaustive now keys props)
  = flat_map (fieldErrors coerceDate exhaustive now props) keys.
Proof.
  induction keys as [|[k s] keys IH]; cbn [Joi.validateKeys flat_map]; [reflexivity|].
  unfold fieldErrors at 1. cbn [fst snd].
  destruct (Joi.validateValue coerceDate exhaustive now s k (get props k)) as [v errs].
  destruct (Joi.validateKeys coerceDate exhaustive now keys props) as [vs errs'].
  cbn [snd] in *. subst errs'. destruct errs; reflexivity.
Qed.

Lemma validate_exhaustive (keys : Joi.ObjectSchema) props :
  Joi.error (Joi.validate coerceDate exhaustive now keys (JObject props))
  = match flat_map (fieldErrors coerceDate exhaustive now props) keys
          ++ Joi.unknownKeys keys props with
    | [] => None
    | e :: es => Some (e :: es)
    end.
Proof.
  unfold Joi.validate. rewrite <- validateKeys_exhaustive.
  destruct (Joi.validateKeys coerceDate exhaustive now keys props) as [vs errs].
  cbn [snd Joi.abortEarly exhaustive].
  destruct errs as [|e errs]; [|reflexivity].
  cbn [app]. destruct (Joi.unknownKeys keys props); reflexivity.
Qed.

(** An error list is never empty. *)
Lemma validate_error_nonempty prefs (keys : Joi.ObjectSchema) (input : JsValue) :
  Joi.error (Joi.validate coerceDate prefs now keys input) <> Some [].
Proof.
  destruct input; try discriminate. unfold Joi.validate.
  destruct (Joi.validateKeys coerceDate prefs now keys props) as [vs errs].
  destruct errs as [|e errs]; destruct (Joi.abortEarly prefs);
    try discriminate;
    destruct (Joi.unknownKeys keys props) as [|u us]; discriminate.
Qed.

Variable prefs : Joi.Prefs.

Lemma validateKeys_ok (keys : Joi.ObjectSchema) props vs :
  Joi.validateKeys coerceDate prefs now keys props = (vs, []) ->
  vs = map (converted coerceDate prefs now props) keys /\ Forall (accepted coerceDate prefs now props) keys.
Proof.
  revert vs. induction keys as [|[k s] keys IH]; intros vs; cbn [Joi.validateKeys].
  - intros H; inversion H. split; constructor.
  - destruct (Joi.validateValue coerceDate prefs now s k (get props k))
      as [v errs] eqn:E.
    destruct (Joi.validateKeys coerceDate prefs now keys props) as [vs' errs'].
    destruct errs as [|e errs].
    + intros H; inversion H; subst. destruct (IH vs' eq_refl) as [-> HF].
      split.
      * cbn [map]. unfold converted at 2. cbn [fst snd]. rewrite E. reflexivity.
      * constructor; [|exact HF]. unfold accepted. cbn [fst snd].
        rewrite E. reflexivity.
    + destruct (Joi.abortEarly prefs); intros H; inversion H.
Qed.

Lemma validate_ok (keys : Joi.ObjectSchema) props :
  Joi.error (Joi.validate coerceDate prefs now keys (JObject props)) = None ->
  Forall (accepted coerceDate prefs now props) keys
  /\ Joi.validate coerceDate prefs now keys (JObject props)
     = {| Joi.error := None; Joi.value := JObject (map (converted coerceDate prefs now props) keys) |}.
Proof.
  unfold Joi.validate.
  destruct (Joi.validateKeys coerceDate prefs now keys props) as [vs errs] eqn:E.
  destruct errs as [|e errs].
  - apply validateKeys_ok in E. destruct E as [-> HF].
    destruct (Joi.abortEarly prefs);
      destruct (Joi.unknownKeys keys props) as [|u us]; try discriminate;
      intros _; split; auto.
  - destruct (Joi.abortEarly prefs); discriminate.
Qed.

(** What a name field must be to pass [string().min(1).max(50)
    .pattern(...).required()], and what passes it. *)
Lemma validateValue_name (s : Joi.Schema) (label : string) (v v' : JsValue) :
  Joi.baseType s = Joi.StringType ->
  Joi.rules s = [Joi.RuleMin 1; Joi.RuleMax 50; Joi.RulePattern nameRegex] ->
  Joi.presenceRequired s = true ->
  Joi.validateValue coerceDate prefs now s label v = (v', []) ->
  exists n, v = JString n /\ v' = JString n /\ validName n.
Proof.
  intros Hb Hr Hp. unfold Joi.validateValue, Joi.base, Joi.hasMinZero.
  rewrite Hb, Hr, Hp.
  destruct v as [| |b|z|n|tv|items|props]; try discriminate.
  destruct n as [|c n]; [discriminate|].
  cbn [Joi.runRules Joi.ruleError existsb orb].
  intros Hv. exists (c :: n). unfold validName.
  destruct (Nat.ltb_spec (JsString.length (c :: n)) 1) as [Hlo|Hlo];
    [destruct (Joi.abortEarly prefs); discriminate|].
  destruct (Nat.ltb_spec 50 (JsString.length (c :: n))) as [Hhi|Hhi];
    [destruct (Joi.abortEarly prefs); discriminate|].
  destruct (nameRegex (c :: n)) eqn:Hre;
    [|destruct (Joi.abortEarly prefs); discriminate].
  cbn in Hv. inversion Hv. repeat split; try reflexivity; lia.
Qed.

Lemma validateValue_name_accepts (s : Joi.Schema) (label : string) (n : jsstring) :
  Joi.baseType s = Joi.StringType ->
  Joi.rules s = [Joi.RuleMin 1; Joi.RuleMax 50; Joi.RulePattern nameRegex] ->
  validName n ->
  Joi.validateValue coerceDate prefs now s label (JString n) = (JString n, []).
Proof.
  intros Hb Hr [[Hlo Hhi] Hre]. unfold Joi.validateValue, Joi.base.
  rewrite Hb, Hr. destruct n as [|c n]; [cbn in Hlo; lia|].
  cbn [Joi.runRules Joi.ruleError]. rewrite Hre.
  destruct (Nat.ltb_spec (JsString.length (c :: n)) 1); [lia|].
  destruct (Nat.ltb_spec 50 (JsString.length (c :: n))); [lia|].
  reflexivity.
Qed.

(** What a date field must be to pass [date().iso().max('now')
    .required()]. *)
Lemma validateValue_date (s : Joi.Schema) (label : string) (v v' : JsValue) :
  Joi.baseType s = Joi.DateType ->
  Joi.rules s = [Joi.RuleMaxNow] ->
  Joi.presenceRequired s = true ->
  Joi.validateValue coerceDate prefs now s label v = (v', []) ->
  exists tv, v' = JDate tv /\ tv <= now
             /\ (v = JDate tv \/ coerceDate (Joi.format s) v = Some tv).
Proof.
  intros Hb Hr Hp. unfold Joi.validateValue, Joi.base.
  rewrite Hb, Hr, Hp.
  assert (G : forall tv, (JDate tv, map (Joi.detail s label)
               (Joi.runRules prefs now [Joi.RuleMaxNow] (JDate tv))) = (v', []) ->
             v' = JDate tv /\ tv <= now).
  { intros tv. cbn [Joi.runRules Joi.ruleError].
    destruct (Z.leb_spec tv now) as [Hle|Hgt];
      [|destruct (Joi.abortEarly prefs); discriminate].
    intros H; inversion H; auto. }
  destruct v as [| |b|z|n|tv|items|props]; try discriminate;
    try (destruct (coerceDate (Joi.format s) _) as [tv|] eqn:Hc;
         [intros H; apply G in H; exists tv; tauto
         |destruct (Joi.format s); discriminate]).
  intros H; apply G in H; exists tv; tauto.
Qed.

(** A request passes [userSchema] only as an object whose two names are
    valid and whose date of birth is not after [now]. *)
Lemma validate_userSchema_ok (input : JsValue) :
  Joi.error (Joi.validate coerceDate prefs now userSchema input) = None ->
  input = JUndefined
  \/ exists props n1 n2 tv,
      input = JObject props
      /\ get props "firstName" = JString n1 /\ validName n1
      /\ get props "lastName" = JString n2 /\ validName n2
      /\ (get props "dateOfBirth" = JDate tv
          \/ coerceDate (Some "iso"%string) (get props "dateOfBirth") = Some tv)
      /\ tv <= now
      /\ Joi.validate coerceDate prefs now userSchema input
         = {| Joi.error := None; Joi.value := validated n1 n2 tv |}.
Proof.
  destruct input as [| |b|z|n|tv|items|props]; try discriminate; [left; reflexivity|].
  intros H. right. apply validate_ok in H. destruct H as [HF ->].
  unfold userSchema, Joi.object in *.
  inversion_clear HF as [|? ? A1 HF1]. inversion_clear HF1 as [|? ? A2 HF2].
  inversion_clear HF2 as [|? ? A3 _].
  unfold accepted, converted in *. cbn [map fst snd] in *.
  match type of A1 with snd ?x = _ =>
    destruct x as [v1 e1] eqn:E1; cbn [snd] in A1; subst e1 end.
  match type of A2 with snd ?x = _ =>
    destruct x as [v2 e2] eqn:E2; cbn [snd] in A2; subst e2 end.
  match type of A3 with snd ?x = _ =>
    destruct x as [v3 e3] eqn:E3; cbn [snd] in A3; subst e3 end.
  apply validateValue_name in E1; [|reflexivity..].
  apply validateValue_name in E2; [|reflexivity..].
  apply validateValue_date in E3; [|reflexivity..].
  destruct E1 as (n1 & G1 & -> & V1). destruct E2 as (n2 & G2 & -> & V2).
  destruct E3 as (tv & -> & Hle & Hsrc).
  exists props, n1, n2, tv. cbn [fst]. split; [reflexivity|].
  repeat (split; [assumption|]). reflexivity.
Qed.

End JoiFacts.

(** ** The error middleware *)

Lemma errorHandler_body (env : option string) (err : JsError) :
  exists msg st, body (errorHandler env err) = Failure false msg st.
Proof. unfold errorHandler. cbn [body]. eauto. Qed.

(** An error of the driver is answered by its SQLSTATE alone. *)
Lemma errorHandler_driver_error (env : option string) (err : JsError) (sqlstate : string) :
  name err = "error"%string -> code err = Some sqlstate -> sqlstate <> EmptyString ->
  errorHandler env err = driverErrorReply sqlstate.
Proof.
  intros Hn Hc Hne. unfold errorHandler, driverErrorReply. rewrite Hn, Hc.
  assert (Ht : truthy (Some sqlstate) = true)
    by (destruct sqlstate; [congruence|reflexivity]).
  rewrite Ht. cbn [String.eqb Ascii.eqb Bool.eqb andb].
  destruct (String.eqb sqlstate "23505"); [destruct env as [e|]; [destruct (String.eqb e _)|]; reflexivity|].
  destruct (String.eqb sqlstate "23503"); [destruct env as [e|]; [destruct (String.eqb e _)|]; reflexivity|].
  destruct (String.eqb sqlstate "23502"); destruct env as [e|];
    try destruct (String.eqb e _); reflexivity.
Qed.

(** Any other error is answered with its own message. *)
Lemma errorHandler_other_error (env : option string) (err : JsError) :
  String.eqb (name err) "error" && truthy (code err) = false ->
  message err <> EmptyString ->
  errorHandler env err
  = {| status := match statusCode err with Some 0 | None => 500 | Some sc => sc end;
       body := Failure false (message err) None |}.
Proof.
  intros Hn Hm. unfold errorHandler. rewrite Hn. cbn.
  destruct (message err); [congruence|].
  destruct env as [e|]; [destruct (String.eqb e _)|]; reflexivity.
Qed.

(** With or without a message of its own. *)
Lemma errorHandler_other_body (env : option string) (err : JsError) :
  String.eqb (name err) "error" && truthy (code err) = false ->
  body (errorHandler env err) = Failure false (messageOrDefault (message err)) None.
Proof.
  intros Hn. unfold errorHandler, messageOrDefault. rewrite Hn. cbn.
  destruct (message err);
    (destruct env as [e|]; [destruct (String.eqb e _)|]; reflexivity).
Qed.

(** ** The two routes *)

Section RouteFacts.

Variable coerceDate : option string -> JsValue -> option JsDate.t.

(** What the handler does with a validated request. *)
Lemma checkEligibility_validated (w : World) (db : Pg.Database) props n1 n2 tv :
  Joi.validate coerceDate Joi.defaults (clock w) userSchema (JObject props)
  = {| Joi.error := None; Joi.value := validated n1 n2 tv |} ->
  let age := calculateAge (LocalTZA w) (newDate w) tv in
  checkEligibility coerceDate w db (JObject props)
  = match queryInsert w db (JsString.trim n1) (JsString.trim n2) tv age (age >=? 18) with
    | (inr row, db') =>
        ({| status := 201;
            body := Eligibility (Pg.id row) age (age >=? 18)
                                (eligibilityMessage (age >=? 18)) (Pg.created_at row) |},
         db')
    | (inl err, db') => (errorHandler (NODE_ENV w) err, db')
    end.
Proof.
  intros Hv age. unfold checkEligibility. rewrite Hv. reflexivity.
Qed.

(** What the handler does with a request that fails validation. *)
Lemma checkEligibility_invalid (w : World) (db : Pg.Database) (reqBody : JsValue) details :
  Joi.error (Joi.validate coerceDate Joi.defaults (clock w) userSchema reqBody)
  = Some details ->
  checkEligibility coerceDate w db reqBody
  = ({| status := 400;
        body := ValidationFailed "Validation failed" (map Joi.message details) |}, db).
Proof.
  intros H. unfold checkEligibility. rewrite H. reflexivity.
Qed.

(** A call answers with an eligibility body only for a valid request
    whose row the store took. *)
Lemma checkEligibility_created (w : World) (db : Pg.Database) (reqBody : JsValue)
      i a e m ts :
  body (fst (checkEligibility coerceDate w db reqBody)) = Eligibility i a e m ts ->
  exists props n1 n2 tv row,
    reqBody = JObject props
    /\ get props "firstName" = JString n1 /\ validName n1
    /\ get props "lastName" = JString n2 /\ validName n2
    /\ tv <= clock w
    /\ a = calculateAge (LocalTZA w) (newDate w) tv
    /\ e = (a >=? 18)
    /\ m = eligibilityMessage e
    /\ Pg.insertUser (NOW w) db (JsString.trim n1) (JsString.trim n2) tv a e
       = (inr row, snd (checkEligibility coerceDate w db reqBody))
    /\ i = Pg.id row /\ ts = Pg.created_at row.
Proof.
  intros H.
  destruct (Joi.error (Joi.validate coerceDate Joi.defaults (clock w) userSchema reqBody))
    as [details|] eqn:E.
  { rewrite (checkEligibility_invalid w db reqBody details E) in H. discriminate. }
  apply validate_userSchema_ok in E.
  destruct E as [->|(props & n1 & n2 & tv & -> & G1 & V1 & G2 & V2 & _ & Hle & Hv)].
  { cbn in H. discriminate. }
  rewrite (checkEligibility_validated w db props n1 n2 tv Hv) in *.
  set (a' := calculateAge (LocalTZA w) (newDate w) tv) in *.
  unfold queryInsert in *.
  destruct (storageFault w) as [err|].
  { cbn [fst] in H. destruct (errorHandler_body (NODE_ENV w) err) as (? & ? & Hb).
    rewrite Hb in H. discriminate. }
  destruct (Pg.insertUser (NOW w) db (JsString.trim n1) (JsString.trim n2) tv a' (a' >=? 18))
    as [[err|row] db'] eqn:Hins; cbn [fst snd] in *.
  { destruct (errorHandler_body (NODE_ENV w) err) as (? & ? & Hb).
    rewrite Hb in H. discriminate. }
  cbn [body] in H. inversion H; subst.
  exists props, n1, n2, tv, row. repeat (split; [first [reflexivity|assumption]|]).
  split; reflexivity.
Qed.

(** A row the table takes is the row appended to it. *)
Lemma insertUser_row NOW db p1 p2 p3 p4 p5 row db' :
  Pg.insertUser NOW db p1 p2 p3 p4 p5 = (inr row, db') ->
  Pg.users db' = Pg.users db ++ [row]
  /\ Pg.first_name row = p1 /\ Pg.last_name row = p2
  /\ Pg.date_of_birth row = p3 /\ Pg.age row = p4 /\ Pg.is_eligible row = p5
  /\ 0 <= p4 <= 150.
Proof.
  unfold Pg.insertUser.
  destruct (Pg.maxSerial <=? Pg.users_id_seq db); [discriminate|].
  destruct ((50 <? JsString.length p1)%nat || (50 <? JsString.length p2)%nat);
    [discriminate|].
  destruct (Z.leb_spec 0 p4) as [Hlo|_]; [|discriminate].
  destruct (Z.leb_spec p4 150) as [Hhi|_]; [|discriminate].
  intros Hrow; inversion Hrow; subst. cbn. repeat split; auto.
Qed.

End RouteFacts.

(* ================================================================== *)
(** * The specification, sentence by sentence *)
(* ================================================================== *)

(** ** Determination records *)

(** C1.  The record a successful check-eligibility call creates has an age
    that is not negative and an eligible flag equal to [age >= 18], the age
    being the one [calculateAge] computes from the stored date of birth at
    the instant of the call; this holds for every request that passes
    validation and is stored. *)
Theorem created_record_invariants
        (coerceDate : option string -> JsValue -> option JsDate.t)
        (w : World) (db : Pg.Database) (reqBody : JsValue) i a e m ts :
  body (fst (checkEligibility coerceDate w db reqBody)) = Eligibility i a e m ts ->
  exists row,
    Pg.users (snd (checkEligibility coerceDate w db reqBody)) = Pg.users db ++ [row]
    /\ Pg.age row = calculateAge (LocalTZA w) (newDate w) (Pg.date_of_birth row)
    /\ 0 <= Pg.age row
    /\ Pg.is_eligible row = (Pg.age row >=? 18)
    /\ a = Pg.age row /\ e = Pg.is_eligible row.
Proof.
  intros H. apply checkEligibility_created in H.
  destruct H as (props & n1 & n2 & tv & row & -> & _ & _ & _ & _ & Hle & Ha & He & _
                 & Hins & _ & _).
  apply insertUser_row in Hins.
  destruct Hins as (Hrows & _ & _ & Hdob & Hage & Helig & Hcheck).
  exists row. rewrite Hdob, Hage, Helig. repeat split; try assumption; try reflexivity.
  lia.
Qed.

Lemma created_record_invariants_witness :
  exists row,
    Pg.users (snd (checkEligibility Sample.coerceDate Sample.world Pg.empty
                     (Sample.request "John" "Doe" "1990-01-01")))
    = Pg.users Pg.empty ++ [row]
    /\ Pg.age row = calculateAge (LocalTZA Sample.world) (newDate Sample.world)
                                 (Pg.date_of_birth row)
    /\ 0 <= Pg.age row
    /\ Pg.is_eligible row = (Pg.age row >=? 18)
    /\ 34 = Pg.age row /\ true = Pg.is_eligible row.
Proof.
  apply (created_record_invariants Sample.coerceDate Sample.world Pg.empty
           (Sample.request "John" "Doe" "1990-01-01")
           1 34 true "You are eligible for the program" (NOW Sample.world)).
  vm_compute. reflexivity.
Defined.

(** C10.  In the reply of a successful call the message is "You are
    eligible for the program" when the eligible flag is true and "You are
    not eligible for the program" when it is false. *)
Theorem message_follows_eligible
        (coerceDate : option string -> JsValue -> option JsDate.t)
        (w : World) (db : Pg.Database) (reqBody : JsValue) i a e m ts :
  body (fst (checkEligibility coerceDate w db reqBody)) = Eligibility i a e m ts ->
  m = (if e then "You are eligible for the program"
       else "You are not eligible for the program")%string.
Proof.
  intros H. apply checkEligibility_created in H.
  destruct H as (props & n1 & n2 & tv & row & _ & _ & _ & _ & _ & _ & _ & _ & Hm & _).
  exact Hm.
Qed.

Lemma message_follows_eligible_witness :
  "You are not eligible for the program"%string
  = (if false then "You are eligible for the program"
     else "You are not eligible for the program")%string.
Proof.
  apply (message_follows_eligible Sample.coerceDate Sample.world Pg.empty
           (Sample.request "Jane" "Doe" "2010-01-01")
           1 14 false "You are not eligible for the program" (NOW Sample.world)).
  vm_compute. reflexivity.
Defined.

(** ** Validation failures *)

(** C9.  When the request fails validation the handler answers 400 and
    hands back the store as it found it: no row is appended and the
    sequence of identifiers is not advanced. *)
Theorem invalid_request_leaves_store
        (coerceDate : option string -> JsValue -> option JsDate.t)
        (w : World) (db : Pg.Database) (reqBody : JsValue) details :
  Joi.error (Joi.validate coerceDate Joi.defaults (clock w) userSchema reqBody)
  = Some details ->
  snd (checkEligibility coerceDate w db reqBody) = db
  /\ fst (checkEligibility coerceDate w db reqBody)
     = {| status := 400;
          body := ValidationFailed "Validation failed" (map Joi.message details) |}.
Proof.
  intros H. rewrite (checkEligibility_invalid coerceDate w db reqBody details H).
  split; reflexivity.
Qed.

Lemma invalid_request_leaves_store_witness :
  let reqBody := Sample.request EmptyString "Doe" "1990-01-01" in
  snd (checkEligibility Sample.coerceDate Sample.world Pg.empty reqBody) = Pg.empty
  /\ fst (checkEligibility Sample.coerceDate Sample.world Pg.empty reqBody)
     = {| status := 400;
          body := ValidationFailed "Validation failed"
                    [Joi.Builtin "string.empty" "firstName"] |}.
Proof.
  apply (invalid_request_leaves_store Sample.coerceDate Sample.world Pg.empty
           (Sample.request EmptyString "Doe" "1990-01-01")
           [ {| Joi.message := Joi.Builtin "string.empty" "firstName";
                Joi.path := "firstName"; Joi.type := "string.empty" |} ]).
  vm_compute. reflexivity.
Defined.

(** C2, as stated, fails: a request whose first and last name both break
    the pattern rule violates two rules, and the reply lists one. *)
Lemma two_violations_one_message :
  let reqBody := Sample.request "John123" "Doe456" "1990-01-01" in
  option_map (map Joi.message)
    (Joi.error (Joi.validate Sample.coerceDate exhaustive (clock Sample.world)
                  userSchema reqBody))
  = Some [ Joi.Custom "First name must contain only letters, spaces, hyphens, and apostrophes";
           Joi.Custom "Last name must contain only letters, spaces, hyphens, and apostrophes" ]
  /\ fst (checkEligibility Sample.coerceDate Sample.world Pg.empty reqBody)
     = {| status := 400;
          body := ValidationFailed "Validation failed"
                    [ Joi.Custom "First name must contain only letters, spaces, hyphens, and apostrophes" ] |}.
Proof. vm_compute. split; reflexivity. Qed.

(** C2, amended.  For every request that violates at least one rule, the
    reply lists exactly one message: that of the first violated rule in
    the order in which Joi enumerates them (the rules of firstName, then
    those of lastName, then those of dateOfBirth, then the properties the
    schema does not know). *)
Theorem validation_reports_first_violation
        (coerceDate : option string -> JsValue -> option JsDate.t)
        (w : World) (db : Pg.Database) (reqBody : JsValue) all :
  Joi.error (Joi.validate coerceDate exhaustive (clock w) userSchema reqBody) = Some all ->
  (forall props, reqBody = JObject props ->
      all = flat_map (fieldErrors coerceDate exhaustive (clock w) props) userSchema
            ++ Joi.unknownKeys userSchema props)
  /\ exists first rest,
      all = first :: rest
      /\ fst (checkEligibility coerceDate w db reqBody)
         = {| status := 400;
              body := ValidationFailed "Validation failed" [Joi.message first] |}.
Proof.
  intros H. split.
  - intros props ->. rewrite validate_exhaustive in H.
    destruct (flat_map _ _ ++ _); [discriminate|]. now inversion H.
  - pose proof (validate_abortEarly coerceDate (clock w) userSchema reqBody) as Hd.
    rewrite H in Hd. cbn [option_map] in Hd.
    destruct all as [|first rest].
    { exfalso. exact (validate_error_nonempty coerceDate (clock w) exhaustive _ _ H). }
    exists first, rest. split; [reflexivity|].
    rewrite (checkEligibility_invalid coerceDate w db reqBody _ Hd). reflexivity.
Qed.

Lemma validation_reports_first_violation_witness :
  let reqBody := Sample.request
                   "Maximilian-Alexander-Bartholomew-Christopher-Davenport-3"
                   "Doe" "yesterday" in
  exists first rest,
    [ {| Joi.message := Joi.Custom "First name cannot exceed 50 characters";
         Joi.path := "firstName"; Joi.type := "string.max" |};
      {| Joi.message := Joi.Custom "First name must contain only letters, spaces, hyphens, and apostrophes";
         Joi.path := "firstName"; Joi.type := "string.pattern.base" |};
      {| Joi.message := Joi.Builtin "date.format" "dateOfBirth";
         Joi.path := "dateOfBirth"; Joi.type := "date.format" |} ]
    = first :: rest
    /\ fst (checkEligibility Sample.coerceDate Sample.world Pg.empty reqBody)
       = {| status := 400;
            body := ValidationFailed "Validation failed" [Joi.message first] |}.
Proof.
  intros reqBody.
  apply (validation_reports_first_violation Sample.coerceDate Sample.world Pg.empty
           reqBody).
  vm_compute. reflexivity.
Defined.

(** C3, amended.  [calculateAge] has no failure of its own; a date of
    birth after the instant of validation is refused before it, by the
    schema: the handler answers 400 without computing an age or touching
    the store, and when both names are valid the one message is "Date of
    birth cannot be in the future". *)
Theorem future_birth_rejected
        (coerceDate : option string -> JsValue -> option JsDate.t)
        (w : World) (db : Pg.Database) props (s : jsstring) (tv : JsDate.t) :
  get props "dateOfBirth" = JString s ->
  coerceDate (Some "iso"%string) (JString s) = Some tv ->
  clock w < tv ->
  (exists details,
      checkEligibility coerceDate w db (JObject props)
      = ({| status := 400; body := ValidationFailed "Validation failed" details |}, db))
  /\ (forall n1 n2,
         get props "firstName" = JString n1 -> validName n1 ->
         get props "lastName" = JString n2 -> validName n2 ->
         fst (checkEligibility coerceDate w db (JObject props))
         = {| status := 400;
              body := ValidationFailed "Validation failed"
                        [Joi.Custom "Date of birth cannot be in the future"] |}).
Proof.
  intros Hget Hc Hfut. split.
  - destruct (Joi.error (Joi.validate coerceDate Joi.defaults (clock w) userSchema
                           (JObject props))) as [details|] eqn:E.
    + exists (map Joi.message details). now apply checkEligibility_invalid.
    + exfalso. apply validate_userSchema_ok in E.
      destruct E as [E|(props' & n1 & n2 & tv' & E & _ & _ & _ & _ & Hsrc & Hle & _)];
        [discriminate|].
      inversion E; subst props'. rewrite Hget in Hsrc.
      destruct Hsrc as [Hsrc|Hsrc]; [discriminate|].
      rewrite Hc in Hsrc. inversion Hsrc; subst. lia.
  - intros n1 n2 G1 V1 G2 V2.
    unfold checkEligibility, Joi.validate, userSchema, Joi.object.
    cbn [Joi.validateKeys]. rewrite G1, G2, Hget.
    rewrite !validateValue_name_accepts by (assumption || reflexivity).
    unfold Joi.validateValue, Joi.base. cbn [Joi.baseType Joi.messages Joi.required
      Joi.max_now Joi.addRule Joi.iso Joi.date Joi.format Joi.rules app].
    rewrite Hc. cbn [Joi.runRules Joi.ruleError].
    destruct (Z.leb_spec tv (clock w)); [lia|]. reflexivity.
Qed.

Lemma future_birth_rejected_witness :
  let reqBody := Sample.request "John" "Doe" "2025-06-15" in
  (exists details,
      checkEligibility Sample.coerceDate Sample.world Pg.empty reqBody
      = ({| status := 400; body := ValidationFailed "Validation failed" details |},
         Pg.empty))
  /\ fst (checkEligibility Sample.coerceDate Sample.world Pg.empty reqBody)
     = {| status := 400;
          body := ValidationFailed "Validation failed"
                    [Joi.Custom "Date of birth cannot be in the future"] |}.
Proof.
  pose proof (future_birth_rejected Sample.coerceDate Sample.world Pg.empty
                [ ("firstName"%string, Sample.str "John");
                  ("lastName"%string, Sample.str "Doe");
                  ("dateOfBirth"%string, Sample.str "2025-06-15") ]
                (JsString.of_string "2025-06-15") (JsDate.UTC 2025 5 15)
                eq_refl eq_refl eq_refl) as [H1 H2].
  split.
  - exact H1.
  - apply (H2 (JsString.of_string "John") (JsString.of_string "Doe")).
    + reflexivity.
    + vm_compute. repeat split; lia.
    + reflexivity.
    + vm_compute. repeat split; lia.
Defined.

(** ** Stored names *)

Lemma validName_normalized (raw : jsstring) :
  validName raw -> normalizedName raw (JsString.trim raw).
Proof.
  intros [[_ Hhi] Hre]. unfold normalizedName.
  assert (Hall : forallb nameChar raw = true)
    by (destruct raw; [discriminate|exact Hre]).
  split; [reflexivity|]. split.
  { pose proof (JsStringFacts.trim_length raw). lia. }
  split; [now apply JsStringFacts.trim_forallb|].
  split; [apply JsStringFacts.trim_idempotent|apply JsStringFacts.trim_nonempty].
Qed.

(** C4, as stated, fails: a first name of one space passes the schema and
    is stored trimmed, as the empty string; and a name with a tab inside
    passes the pattern, whose class is [\s], and is stored with the tab. *)
Lemma blank_name_stored_empty :
  let tab := String (ascii_of_nat 9) EmptyString in
  let r := checkEligibility Sample.coerceDate Sample.world Pg.empty
             (Sample.request " " "Doe" "1990-01-01") in
  let r' := checkEligibility Sample.coerceDate Sample.world Pg.empty
              (Sample.request ("Mary" ++ tab ++ "Ann") "Doe" "1990-01-01") in
  body (fst r) = Eligibility 1 34 true "You are eligible for the program" (NOW Sample.world)
  /\ map Pg.first_name (Pg.users (snd r)) = [ [] ]
  /\ map (fun row => JsString.length (Pg.first_name row)) (Pg.users (snd r)) = [ 0%nat ]
  /\ body (fst r') = Eligibility 1 34 true "You are eligible for the program"
                                 (NOW Sample.world)
  /\ map Pg.first_name (Pg.users (snd r')) = [ JsString.of_string ("Mary" ++ tab ++ "Ann") ].
Proof. vm_compute. repeat split; reflexivity. Qed.

(** C4, amended.  The names a successful call stores are the submitted
    names trimmed: at most 50 code units long, made of ASCII letters,
    white space, hyphens and apostrophes only, without white space at
    either end, and at least one code unit long when the submitted name
    has a character that is not white space. *)
Theorem stored_names_normalized
        (coerceDate : option string -> JsValue -> option JsDate.t)
        (w : World) (db : Pg.Database) (reqBody : JsValue) i a e m ts :
  body (fst (checkEligibility coerceDate w db reqBody)) = Eligibility i a e m ts ->
  exists props n1 n2 row,
    reqBody = JObject props
    /\ get props "firstName" = JString n1
    /\ get props "lastName" = JString n2
    /\ Pg.users (snd (checkEligibility coerceDate w db reqBody)) = Pg.users db ++ [row]
    /\ normalizedName n1 (Pg.first_name row)
    /\ normalizedName n2 (Pg.last_name row).
Proof.
  intros H. apply checkEligibility_created in H.
  destruct H as (props & n1 & n2 & tv & row & -> & G1 & V1 & G2 & V2 & _ & _ & _ & _
                 & Hins & _ & _).
  apply insertUser_row in Hins. destruct Hins as (Hrows & Hf & Hl & _).
  exists props, n1, n2, row. rewrite Hf, Hl.
  repeat (split; [first [reflexivity|assumption]|]).
  split; now apply validName_normalized.
Qed.

Lemma stored_names_normalized_witness :
  exists props n1 n2 row,
    Sample.request "  Mary Ann " "O'Neil-Smith" "1990-01-01" = JObject props
    /\ get props "firstName" = JString n1
    /\ get props "lastName" = JString n2
    /\ Pg.users (snd (checkEligibility Sample.coerceDate Sample.world Pg.empty
                        (Sample.request "  Mary Ann " "O'Neil-Smith" "1990-01-01")))
       = Pg.users Pg.empty ++ [row]
    /\ normalizedName n1 (Pg.first_name row)
    /\ normalizedName n2 (Pg.last_name row).
Proof.
  apply (stored_names_normalized Sample.coerceDate Sample.world Pg.empty
           (Sample.request "  Mary Ann " "O'Neil-Smith" "1990-01-01")
           1 34 true "You are eligible for the program" (NOW Sample.world)).
  vm_compute. reflexivity.
Defined.

Example stored_names_sample :
  map (fun row => (Pg.first_name row, Pg.last_name row))
      (Pg.users (snd (checkEligibility Sample.coerceDate Sample.world Pg.empty
                        (Sample.request "  Mary Ann " "O'Neil-Smith" "1990-01-01"))))
  = [ (JsString.of_string "Mary Ann", JsString.of_string "O'Neil-Smith") ].
Proof. vm_compute. reflexivity. Qed.


(** ** Storage failures *)

(** C5, as stated, fails: two calls whose store cannot be reached, each
    failing with its own error, get two different bodies, each carrying
    the message of the underlying error. *)
Lemma storage_errors_reach_the_caller :
  let refused := {| name := "Error";
                    message := "connect ECONNREFUSED 127.0.0.1:5432";
                    stack := None; code := Some "ECONNREFUSED"%string;
                    statusCode := None |} in
  let dropped := {| name := "Error";
                    message := "Connection terminated unexpectedly";
                    stack := None; code := None; statusCode := None |} in
  let reqBody := Sample.request "John" "Doe" "1990-01-01" in
  let r1 := fst (checkEligibility Sample.coerceDate (Sample.withFault refused)
                   Pg.empty reqBody) in
  let r2 := fst (checkEligibility Sample.coerceDate (Sample.withFault dropped)
                   Pg.empty reqBody) in
  r1 = {| status := 500;
          body := Failure false "connect ECONNREFUSED 127.0.0.1:5432" None |}
  /\ r2 = {| status := 500;
             body := Failure false "Connection terminated unexpectedly" None |}
  /\ body r1 <> body r2.
Proof. vm_compute. repeat split; try reflexivity. discriminate. Qed.

(** C5, amended.  When the store fails on a validated request the reply
    is that of the error middleware.  For an error of the PostgreSQL
    driver (name 'error' and an SQLSTATE) it is a fixed reply chosen by
    the SQLSTATE alone, whatever the message of the underlying error; for
    any other error it carries the message of the underlying error, and
    'Internal Server Error' when that message is empty. *)
Theorem storage_failure_reply
        (coerceDate : option string -> JsValue -> option JsDate.t)
        (w : World) (db db' : Pg.Database) props n1 n2 tv (err : JsError) :
  Joi.validate coerceDate Joi.defaults (clock w) userSchema (JObject props)
  = {| Joi.error := None; Joi.value := validated n1 n2 tv |} ->
  (let age := calculateAge (LocalTZA w) (newDate w) tv in
   queryInsert w db (JsString.trim n1) (JsString.trim n2) tv age (age >=? 18)
   = (inl err, db')) ->
  let reply := fst (checkEligibility coerceDate w db (JObject props)) in
  reply = errorHandler (NODE_ENV w) err
  /\ (forall sqlstate,
         name err = "error"%string -> code err = Some sqlstate ->
         sqlstate <> EmptyString ->
         reply = driverErrorReply sqlstate)
  /\ (String.eqb (name err) "error" && truthy (code err) = false ->
      body reply = Failure false (messageOrDefault (message err)) None
      /\ (message err <> EmptyString -> messageOrDefault (message err) = message err)
      /\ (message err = EmptyString
          -> messageOrDefault (message err) = "Internal Server Error"%string)).
Proof.
  intros Hv Hq reply.
  assert (Hr : reply = errorHandler (NODE_ENV w) err).
  { subst reply. rewrite (checkEligibility_validated coerceDate w db props n1 n2 tv Hv).
    cbv zeta in Hq. rewrite Hq. reflexivity. }
  split; [exact Hr|]. rewrite Hr. split.
  - intros sqlstate Hn Hc Hne. now apply errorHandler_driver_error.
  - intros Hn. split; [now apply errorHandler_other_body|].
    unfold messageOrDefault. destruct (message err); split; congruence.
Qed.

Lemma storage_failure_reply_witness :
  let err := Pg.DatabaseError "57P03" "the database system is starting up" in
  let reply := fst (checkEligibility Sample.coerceDate (Sample.withFault err) Pg.empty
                      (Sample.request "John" "Doe" "1990-01-01")) in
  reply = {| status := 500; body := Failure false "Database error" None |}.
Proof.
  intros err reply.
  destruct (storage_failure_reply Sample.coerceDate (Sample.withFault err)
              Pg.empty Pg.empty
              [ ("firstName"%string, Sample.str "John");
                ("lastName"%string, Sample.str "Doe");
                ("dateOfBirth"%string, Sample.str "1990-01-01") ]
              (JsString.of_string "John") (JsString.of_string "Doe")
              (JsDate.UTC 1990 0 1) err
              ltac:(vm_compute; reflexivity) ltac:(vm_compute; reflexivity))
    as (_ & Hdriver & _).
  apply (Hdriver "57P03"%string); [reflexivity|reflexivity|discriminate].
Defined.

(** The rows the table itself refuses are answered in the same way. *)
Example age_check_violation_reply :
  fst (checkEligibility Sample.coerceDate Sample.world Pg.empty
         (Sample.request "John" "Doe" "1850-01-01"))
  = {| status := 500; body := Failure false "Database error" None |}.
Proof. vm_compute. reflexivity. Qed.

(** So is a request that finds the sequence of identifiers used up. *)
Example serial_exhausted_reply :
  let db := {| Pg.users := []; Pg.users_id_seq := Pg.maxSerial |} in
  checkEligibility Sample.coerceDate Sample.world db Scenario.john
  = ({| status := 500; body := Failure false "Database error" None |}, db).
Proof. vm_compute. reflexivity. Qed.

(** ** Statistics *)

Lemma parseFloatOrZero_Qeq (q : Q) : (parseFloatOrZero (Some q) == q)%Q.
Proof.
  unfold parseFloatOrZero. destruct (Qeq_bool q 0) eqn:E; [|reflexivity].
  apply Qeq_bool_eq in E. symmetry. exact E.
Qed.



Lemma count_all (rows : list Pg.Row) :
  Pg.count (fun _ => true) rows = Z.of_nat (List.length rows).
Proof.
  unfold Pg.count. f_equal. f_equal.
  induction rows as [|r rows IH]; cbn; congruence.
Qed.





Example average_age_sample :
  let row (age : Z) := {| Pg.id := age; Pg.first_name := JsString.of_string "A";
                          Pg.last_name := JsString.of_string "B";
                          Pg.date_of_birth := 0; Pg.age := age;
                          Pg.is_eligible := age >=? 18; Pg.created_at := 0 |} in
  getStatistics Sample.world
    {| Pg.users := [row 17; row 18; row 40]; Pg.users_id_seq := 3 |}
  = {| status := 200; body := Statistics 3 2 1 (Qmake 2500 100) |}.
Proof. vm_compute. reflexivity. Qed.

(** C8.  Over an empty table, and with the store reachable, the reply is
    totalUsers = 0, eligibleUsers = 0, ineligibleUsers = 0 and averageAge
    = 0: the NULL average is read as zero and nothing is divided. *)
Theorem empty_table_statistics (w : World) (db : Pg.Database) :
  storageFault w = None ->
  Pg.users db = [] ->
  getStatistics w db = {| status := 200; body := Statistics 0 0 0 0 |}.
Proof.
  intros Hf Hu. unfold getStatistics, queryStats. rewrite Hf.
  unfold Pg.selectStats. rewrite Hu. reflexivity.
Qed.

Lemma empty_table_statistics_witness :
  getStatistics Sample.world Pg.empty = {| status := 200; body := Statistics 0 0 0 0 |}.
Proof.
  apply (empty_table_statistics Sample.world Pg.empty); reflexivity.
Defined.

(* ================================================================== *)
(** * Further properties of the code *)
(* ================================================================== *)

Section StoreFacts.
Variable coerceDate : option string -> JsValue -> option JsDate.t.

Lemma insertUser_cases NOW db p1 p2 p3 p4 p5 :
  (exists err db', Pg.insertUser NOW db p1 p2 p3 p4 p5 = (inl err, db')
               /\ Pg.users db' = Pg.users db
               /\ Pg.users_id_seq db <= Pg.users_id_seq db' <= Pg.users_id_seq db + 1
               /\ name err = "error"%string
               /\ (code err = Some "2200H"%string
                   \/ code err = Some "22001"%string \/ code err = Some "23514"%string)
               /\ (Pg.maxSerial <= Pg.users_id_seq db
                   \/ (50 < JsString.length p1)%nat \/ (50 < JsString.length p2)%nat
                   \/ p4 < 0 \/ 150 < p4))
  \/ (Pg.users_id_seq db < Pg.maxSerial
      /\ (JsString.length p1 <= 50)%nat /\ (JsString.length p2 <= 50)%nat
      /\ 0 <= p4 <= 150
      /\ Pg.insertUser NOW db p1 p2 p3 p4 p5
         = (inr {| Pg.id := Pg.users_id_seq db + 1; Pg.first_name := p1;
                   Pg.last_name := p2; Pg.date_of_birth := p3; Pg.age := p4;
                   Pg.is_eligible := p5; Pg.created_at := NOW |},
            {| Pg.users := Pg.users db
                           ++ [ {| Pg.id := Pg.users_id_seq db + 1; Pg.first_name := p1;
                                   Pg.last_name := p2; Pg.date_of_birth := p3;
                                   Pg.age := p4; Pg.is_eligible := p5;
                                   Pg.created_at := NOW |} ];
               Pg.users_id_seq := Pg.users_id_seq db + 1 |})).
Proof.
  unfold Pg.insertUser.
  destruct (Z.leb_spec Pg.maxSerial (Pg.users_id_seq db)) as [H0|H0].
  { left. do 2 eexists. split; [reflexivity|]. cbn. repeat split; auto; lia. }
  destruct (Nat.ltb_spec 50 (JsString.length p1)) as [H1|H1]; cbn [orb].
  { left. do 2 eexists. split; [reflexivity|]. cbn. repeat split; auto; lia. }
  destruct (Nat.ltb_spec 50 (JsString.length p2)) as [H2|H2].
  { left. do 2 eexists. split; [reflexivity|]. cbn. repeat split; auto; lia. }
  destruct (Z.leb_spec 0 p4) as [H3|H3]; cbn [andb negb].
  2:{ left. do 2 eexists. split; [reflexivity|]. cbn. repeat split; auto 6; lia. }
  destruct (Z.leb_spec p4 150) as [H4|H4]; cbn [negb].
  2:{ left. do 2 eexists. split; [reflexivity|]. cbn. repeat split; auto 6; lia. }
  right. repeat split; try assumption.
Qed.

(** A call either appends the row it reports, or leaves the rows alone. *)
Lemma checkEligibility_cases (w : World) (db : Pg.Database) (reqBody : JsValue) :
  let r := checkEligibility coerceDate w db reqBody in
  (isCreated (fst r) = false
   /\ Pg.users (snd r) = Pg.users db
   /\ Pg.users_id_seq db <= Pg.users_id_seq (snd r) <= Pg.users_id_seq db + 1)
  \/ (exists props n1 n2 tv,
         reqBody = JObject props
         /\ get props "firstName" = JString n1 /\ validName n1
         /\ get props "lastName" = JString n2 /\ validName n2
         /\ tv <= clock w
         /\ let a := calculateAge (LocalTZA w) (newDate w) tv in
            let row := {| Pg.id := Pg.users_id_seq db + 1;
                          Pg.first_name := JsString.trim n1;
                          Pg.last_name := JsString.trim n2;
                          Pg.date_of_birth := tv; Pg.age := a;
                          Pg.is_eligible := a >=? 18; Pg.created_at := NOW w |} in
            (0 <= a <= 150 /\ Pg.users_id_seq db < Pg.maxSerial)
            /\ r = ({| status := 201;
                       body := Eligibility (Pg.id row) a (a >=? 18)
                                           (eligibilityMessage (a >=? 18)) (NOW w) |},
                    {| Pg.users := Pg.users db ++ [row];
                       Pg.users_id_seq := Pg.users_id_seq db + 1 |})).
Proof.
  intros r. subst r.
  destruct (Joi.error (Joi.validate coerceDate Joi.defaults (clock w) userSchema reqBody))
    as [details|] eqn:E.
  { left. rewrite (checkEligibility_invalid coerceDate w db reqBody details E).
    cbn. repeat split; lia. }
  apply validate_userSchema_ok in E.
  destruct E as [->|(props & n1 & n2 & tv & -> & G1 & V1 & G2 & V2 & _ & Hle & Hv)].
  { left. cbn. repeat split; lia. }
  rewrite (checkEligibility_validated coerceDate w db props n1 n2 tv Hv).
  set (a := calculateAge (LocalTZA w) (newDate w) tv).
  unfold queryInsert. destruct (storageFault w) as [err|].
  { left. cbn [fst snd]. destruct (errorHandler_body (NODE_ENV w) err) as (? & ? & Hb).
    unfold isCreated. rewrite Hb. repeat split; lia. }
  destruct (insertUser_cases (NOW w) db (JsString.trim n1) (JsString.trim n2) tv a (a >=? 18))
    as [(err & db' & -> & Hu & Hs & _)|(L0 & L1 & L2 & Ha & ->)].
  - left. cbn [fst snd]. destruct (errorHandler_body (NODE_ENV w) err) as (? & ? & Hb).
    unfold isCreated. rewrite Hb. repeat split; [exact Hu|lia|lia].
  - right. exists props, n1, n2, tv.
    split; [reflexivity|]. do 5 (split; [assumption|]).
    cbv zeta. fold a. split; [split; assumption|reflexivity].
Qed.

(** X6.  A call of the check-eligibility route never changes or removes
    a stored row: the rows afterwards are the rows before followed by at
    most one new row, and there is a new row exactly when the reply is
    the 201 eligibility body. *)
Theorem checkEligibility_append_only (w : World) (db : Pg.Database) (reqBody : JsValue) :
  let r := checkEligibility coerceDate w db reqBody in
  exists rows,
    Pg.users (snd r) = Pg.users db ++ rows
    /\ (List.length rows <= 1)%nat
    /\ (List.length rows = 1%nat <-> isCreated (fst r) = true).
Proof.
  intros r. subst r.
  destruct (checkEligibility_cases w db reqBody)
    as [(Hc & Hu & _)|(props & n1 & n2 & tv & _ & _ & _ & _ & _ & _ & _ & Hr)].
  - exists []. rewrite Hu, app_nil_r, Hc. cbn. repeat split; try lia; discriminate.
  - cbv zeta in Hr. rewrite Hr. cbn [fst snd Pg.users]. eexists. split; [reflexivity|].
    cbn. repeat split; lia.
Qed.

Lemma increasing_snoc (l : list Z) (x : Z) :
  increasing l -> (forall y, In y l -> y < x) -> increasing (l ++ [x]).
Proof.
  induction l as [|a l IH]; cbn; [intros _ _; split; [intros ? []|exact I]|].
  intros [Ha Hl] Hx. split.
  - intros y Hy. apply in_app_or in Hy as [Hy|[<-|[]]]; [now apply Ha|apply Hx; now left].
  - apply IH; [exact Hl|]. intros y Hy. apply Hx. now right.
Qed.

Lemma increasing_NoDup (l : list Z) : increasing l -> NoDup l.
Proof.
  induction l as [|a l IH]; cbn; [constructor|].
  intros [Ha Hl]. constructor; [|now apply IH].
  intros Hin. specialize (Ha a Hin). lia.
Qed.

Lemma reachable_ids (db : Pg.Database) :
  reachable coerceDate db ->
  0 <= Pg.users_id_seq db
  /\ increasing (map Pg.id (Pg.users db))
  /\ Forall (fun r => 1 <= Pg.id r <= Pg.users_id_seq db) (Pg.users db).
Proof.
  induction 1 as [|w db reqBody _ (IH0 & IHi & IHb)];
    [cbn; repeat split; [lia|constructor]|].
  destruct (checkEligibility_cases w db reqBody)
    as [(_ & Hu & Hs)|(props & n1 & n2 & tv & _ & _ & _ & _ & _ & _ & _ & Hr)].
  - rewrite Hu. split; [lia|]. split; [exact IHi|].
    eapply Forall_impl; [|exact IHb]. cbn. intros r. lia.
  - cbv zeta in Hr. rewrite Hr. cbn [fst snd Pg.users Pg.users_id_seq].
    rewrite Forall_forall in IHb. split; [lia|]. split.
    + rewrite map_app. cbn [map Pg.id]. apply increasing_snoc; [exact IHi|].
      intros y Hy. apply in_map_iff in Hy as (r & <- & Hr'). specialize (IHb r Hr'). lia.
    + apply Forall_app. split.
      * apply Forall_forall. intros r Hr'. specialize (IHb r Hr'). lia.
      * constructor; [cbn; lia|constructor].
Qed.

(** X7.  On a table built by the route from the empty table, the
    identifiers of the rows grow strictly in the order of insertion (so no
    two rows share one), and the id a successful call reports is the id of
    a stored row, larger than the id of every row stored before. *)
Theorem stored_ids_fresh (w : World) (db : Pg.Database) (reqBody : JsValue) i a e m ts :
  reachable coerceDate db ->
  body (fst (checkEligibility coerceDate w db reqBody)) = Eligibility i a e m ts ->
  let ids := map Pg.id (Pg.users (snd (checkEligibility coerceDate w db reqBody))) in
  increasing ids /\ NoDup ids
  /\ (forall r, In r (Pg.users db) -> 1 <= Pg.id r < i)
  /\ In i ids.
Proof.
  intros Hreach Hb ids.
  pose proof (reachable_ids _ (reachable_call coerceDate w db reqBody Hreach))
    as (_ & Hinc & _).
  fold ids in Hinc. split; [exact Hinc|]. split; [now apply increasing_NoDup|].
  destruct (reachable_ids db Hreach) as (_ & _ & Hbound).
  subst ids.
  destruct (checkEligibility_cases w db reqBody)
    as [(Hc & _)|(props & n1 & n2 & tv & _ & _ & _ & _ & _ & _ & _ & Hr)].
  - unfold isCreated in Hc. rewrite Hb in Hc. discriminate.
  - cbv zeta in Hr. rewrite Hr in *. cbn [fst snd body Pg.users Pg.id] in *.
    inversion Hb; subst. split.
    + intros r Hr'. rewrite Forall_forall in Hbound. specialize (Hbound r Hr'). lia.
    + rewrite map_app. apply in_or_app. right. now left.
Qed.

Lemma reachable_rows (db : Pg.Database) :
  reachable coerceDate db ->
  Forall (fun r => rowConstraints r
                   /\ Pg.is_eligible r = (Pg.age r >=? 18)
                   /\ forallb nameChar (Pg.first_name r) = true
                   /\ forallb nameChar (Pg.last_name r) = true
                   /\ JsString.trim (Pg.first_name r) = Pg.first_name r
                   /\ JsString.trim (Pg.last_name r) = Pg.last_name r)
         (Pg.users db).
Proof.
  induction 1 as [|w db reqBody _ IH]; [constructor|].
  destruct (checkEligibility_cases w db reqBody)
    as [(_ & Hu & _)|(props & n1 & n2 & tv & _ & _ & V1 & _ & V2 & _ & Ha & Hr)].
  - rewrite Hu. exact IH.
  - cbv zeta in Hr, Ha. rewrite Hr. cbn [fst snd Pg.users].
    apply Forall_app. split; [exact IH|]. constructor; [|constructor].
    destruct (validName_normalized n1 V1) as (_ & L1 & C1 & T1 & _).
    destruct (validName_normalized n2 V2) as (_ & L2 & C2 & T2 & _).
    unfold rowConstraints. cbn. repeat split; try assumption; lia.
Qed.
(** X8.  Every row of a table built by the route satisfies the
    constraints the table declares (names of at most 50 characters, an
    age from 0 to 150), has its eligible flag equal to [age >= 18], and
    holds names of the character class of the pattern with nothing left
    to trim. *)
Theorem stored_rows_keep_constraints (db : Pg.Database) (r : Pg.Row) :
  reachable coerceDate db ->
  In r (Pg.users db) ->
  rowConstraints r
  /\ Pg.is_eligible r = (Pg.age r >=? 18)
  /\ forallb nameChar (Pg.first_name r) = true
  /\ forallb nameChar (Pg.last_name r) = true
  /\ JsString.trim (Pg.first_name r) = Pg.first_name r
  /\ JsString.trim (Pg.last_name r) = Pg.last_name r.
Proof.
  intros Hreach Hin. pose proof (reachable_rows db Hreach) as HF.
  rewrite Forall_forall in HF. exact (HF r Hin).
Qed.
End StoreFacts.

Lemma count_app (p : Pg.Row -> bool) (l1 l2 : list Pg.Row) :
  Pg.count p (l1 ++ l2) = Pg.count p l1 + Pg.count p l2.
Proof.
  unfold Pg.count. rewrite filter_app, length_app. lia.
Qed.

Lemma count_partition (rows : list Pg.Row) :
  Pg.count (fun _ => true) rows
  = Pg.count (fun r => Bool.eqb (Pg.is_eligible r) true) rows
    + Pg.count (fun r => Bool.eqb (Pg.is_eligible r) false) rows.
Proof.
  unfold Pg.count.
  induction rows as [|r rows IH]; [reflexivity|].
  cbn [filter]. destruct (Pg.is_eligible r); cbn [Bool.eqb List.length] in *; lia.
Qed.

Lemma getStatistics_ok (w : World) (db : Pg.Database) t e i avg :
  body (getStatistics w db) = Statistics t e i avg ->
  storageFault w = None
  /\ t = Pg.count (fun _ => true) (Pg.users db)
  /\ e = Pg.count (fun r => Bool.eqb (Pg.is_eligible r) true) (Pg.users db)
  /\ i = Pg.count (fun r => Bool.eqb (Pg.is_eligible r) false) (Pg.users db).
Proof.
  unfold getStatistics, queryStats. destruct (storageFault w) as [err|].
  - destruct (errorHandler_body (NODE_ENV w) err) as (? & ? & ->). discriminate.
  - cbn. intros H; inversion H. auto.
Qed.

(** X1.  In every statistics reply totalUsers = eligibleUsers +
    ineligibleUsers, none of the three is negative and totalUsers is the
    number of stored rows. *)
Theorem statistics_counts_add_up (w : World) (db : Pg.Database) t e i avg :
  body (getStatistics w db) = Statistics t e i avg ->
  t = e + i /\ 0 <= e /\ 0 <= i /\ t = Z.of_nat (List.length (Pg.users db)).
Proof.
  intros H. apply getStatistics_ok in H. destruct H as (_ & -> & -> & ->).
  split; [apply count_partition|]. unfold Pg.count at 1 2.
  repeat split; try lia. apply count_all.
Qed.

Section S.
Variable coerceDate : option string -> JsValue -> option JsDate.t.

(** X2.  After a successful check-eligibility call the statistics count
    one user more, and one more eligible user or one more ineligible user
    according to the eligible flag of the reply. *)
Theorem statistics_after_check (w w' : World) (db : Pg.Database) (reqBody : JsValue)
        i a e m ts :
  body (fst (checkEligibility coerceDate w db reqBody)) = Eligibility i a e m ts ->
  storageFault w' = None ->
  exists t el inel avg avg',
    getStatistics w' db = {| status := 200; body := Statistics t el inel avg |}
    /\ getStatistics w' (snd (checkEligibility coerceDate w db reqBody))
       = {| status := 200;
            body := Statistics (t + 1)
                               (el + if e then 1 else 0)
                               (inel + if e then 0 else 1) avg' |}.
Proof.
  intros Hb Hf.
  destruct (checkEligibility_cases coerceDate w db reqBody)
    as [(Hc & _)|(props & n1 & n2 & tv & _ & _ & _ & _ & _ & _ & _ & Hr)].
  { unfold isCreated in Hc. rewrite Hb in Hc. discriminate. }
  cbv zeta in Hr. rewrite Hr in *. cbn [fst snd body] in *. inversion Hb; subst.
  unfold getStatistics, queryStats. rewrite Hf. unfold Pg.selectStats.
  cbn [Pg.total_users Pg.eligible_users Pg.ineligible_users Pg.average_age Pg.users].
  do 5 eexists. split; [reflexivity|].
  rewrite !count_app. f_equal. f_equal.
  - unfold Pg.count at 3. cbn.
    destruct (calculateAge _ _ _ >=? 18); reflexivity.
  - unfold Pg.count at 3. cbn.
    destruct (calculateAge _ _ _ >=? 18); reflexivity.
Qed.

(** X4.  On a table built by the route, eligibleUsers is the number of
    stored ages of 18 or more and ineligibleUsers the number of stored
    ages under 18. *)
Theorem statistics_split_by_age (w : World) (db : Pg.Database) t e i avg :
  reachable coerceDate db ->
  body (getStatistics w db) = Statistics t e i avg ->
  e = Pg.count (fun r => Pg.age r >=? 18) (Pg.users db)
  /\ i = Pg.count (fun r => Pg.age r <? 18) (Pg.users db).
Proof.
  intros Hreach H. apply getStatistics_ok in H. destruct H as (_ & _ & -> & ->).
  pose proof (reachable_rows coerceDate db Hreach) as HF.
  unfold Pg.count.
  induction HF as [|r rows (_ & He & _) _ IH]; [split; reflexivity|].
  cbn [filter]. rewrite He.
  replace (Pg.age r <? 18) with (negb (Pg.age r >=? 18))
    by (rewrite Z.geb_leb, Z.ltb_antisym; reflexivity).
  destruct IH as [IH1 IH2].
  destruct (Pg.age r >=? 18); cbn [Bool.eqb negb List.length]; split; lia.
Qed.

(** X9.  A validated request whose computed age exceeds 150 is refused
    by the table's CHECK constraint: the reply is 500 'Database error' and
    no row is stored. *)
Theorem age_over_150_refused (w : World) (db : Pg.Database) props n1 n2 tv :
  Joi.validate coerceDate Joi.defaults (clock w) userSchema (JObject props)
  = {| Joi.error := None; Joi.value := validated n1 n2 tv |} ->
  storageFault w = None ->
  150 < calculateAge (LocalTZA w) (newDate w) tv ->
  fst (checkEligibility coerceDate w db (JObject props))
  = {| status := 500; body := Failure false "Database error" None |}
  /\ Pg.users (snd (checkEligibility coerceDate w db (JObject props))) = Pg.users db.
Proof.
  intros Hv Hf Hage.
  rewrite (checkEligibility_validated coerceDate w db props n1 n2 tv Hv).
  set (a := calculateAge (LocalTZA w) (newDate w) tv) in *.
  unfold queryInsert. rewrite Hf.
  destruct (insertUser_cases (NOW w) db (JsString.trim n1) (JsString.trim n2) tv a (a >=? 18))
    as [(err & db' & -> & Hu & _ & Hn & Hc & _)|(_ & _ & _ & Ha & _)]; [|lia].
  cbn [fst snd]. split; [|exact Hu].
  destruct Hc as [Hc|[Hc|Hc]];
    rewrite (errorHandler_driver_error _ _ _ Hn Hc ltac:(discriminate)); reflexivity.
Qed.
(** X3.  A check-eligibility call that does not answer with the 201
    eligibility body leaves the statistics as they were. *)
Theorem statistics_unchanged_by_failed_check (w w' : World) (db : Pg.Database)
        (reqBody : JsValue) :
  isCreated (fst (checkEligibility coerceDate w db reqBody)) = false ->
  getStatistics w' (snd (checkEligibility coerceDate w db reqBody)) = getStatistics w' db.
Proof.
  intros Hc.
  destruct (checkEligibility_cases coerceDate w db reqBody)
    as [(_ & Hu & _)|(props & n1 & n2 & tv & _ & _ & _ & _ & _ & _ & _ & Hr)].
  - unfold getStatistics, queryStats, Pg.selectStats. rewrite Hu. reflexivity.
  - cbv zeta in Hr. rewrite Hr in Hc. discriminate.
Qed.
End S.

Lemma sum_age_bounds (rows : list Pg.Row) :
  Forall (fun r => 0 <= Pg.age r <= 150) rows ->
  0 <= Pg.sum Pg.age rows <= 150 * Z.of_nat (List.length rows).
Proof.
  induction 1 as [|r rows Hr _ IH]; [cbn; lia|].
  cbn [Pg.sum fold_right List.length] in *. fold (Pg.sum Pg.age rows) in *.
  rewrite Nat2Z.inj_succ. lia.
Qed.

Lemma round2_bounds (n d : Z) :
  0 < d -> 0 <= n <= 150 * d ->
  (0 <= Pg.round2 n d <= 150)%Q.
Proof.
  intros Hd Hn. unfold Pg.round2.
  pose proof (Z.div_mod (200 * Z.abs n + d) (2 * d) ltac:(lia)) as Hdm.
  pose proof (Z.mod_pos_bound (200 * Z.abs n + d) (2 * d) ltac:(lia)) as Hr.
  set (q := (200 * Z.abs n + d) / (2 * d)) in *.
  set (r := (200 * Z.abs n + d) mod (2 * d)) in *. clearbody q r.
  rewrite Z.abs_eq in Hdm by lia.
  assert (Hq : 0 <= q <= 15000) by nia.
  unfold Qle. cbn [Qnum Qden].
  destruct (Z.sgn_spec n) as [[Hs ->]|[[Hs ->]|[Hs ->]]]; lia.
Qed.

Section A.
Variable coerceDate : option string -> JsValue -> option JsDate.t.

(** X5.  On a table built by the route the averageAge of a statistics
    reply lies between 0 and 150. *)
Theorem statistics_average_bounds (w : World) (db : Pg.Database) t e i avg :
  reachable coerceDate db ->
  body (getStatistics w db) = Statistics t e i avg ->
  (0 <= avg <= 150)%Q.
Proof.
  intros Hreach H.
  pose proof (reachable_rows coerceDate db Hreach) as HF.
  assert (Hages : Forall (fun r => 0 <= Pg.age r <= 150) (Pg.users db)).
  { eapply Forall_impl; [|exact HF]. cbn. intros r ((_ & _ & Ha) & _). exact Ha. }
  unfold getStatistics, queryStats in H. destruct (storageFault w) as [err|].
  { destruct (errorHandler_body (NODE_ENV w) err) as (? & ? & Hb). rewrite Hb in H.
    discriminate. }
  cbn in H. inversion H; subst. clear H.
  unfold Pg.roundAvgAge. destruct (Pg.users db) as [|r rows] eqn:Hu.
  { cbn. split; discriminate. }
  rewrite parseFloatOrZero_Qeq. apply round2_bounds.
  - rewrite count_all. cbn [List.length]. lia.
  - rewrite count_all. apply sum_age_bounds. exact Hages.
Qed.
End A.

Section V.
Variable coerceDate : option string -> JsValue -> option JsDate.t.

Lemma unknownKeys_firstUnknown (props : list (string * JsValue)) :
  firstn 1 (Joi.unknownKeys userSchema props)
  = match firstUnknown props with
    | Some k => [ {| Joi.message := Joi.Builtin "object.unknown" k;
                     Joi.path := k; Joi.type := "object.unknown" |} ]
    | None => []
    end.
Proof.
  unfold firstUnknown, Joi.unknownKeys.
  destruct (filter _ props) as [|[k v] rest]; reflexivity.
Qed.

(** What Joi answers when the three fields are valid. *)
Lemma validate_valid_fields (now : Z) props n1 n2 s tv :
  get props "firstName" = JString n1 -> validName n1 ->
  get props "lastName" = JString n2 -> validName n2 ->
  get props "dateOfBirth" = JString s ->
  coerceDate (Some "iso"%string) (JString s) = Some tv ->
  tv <= now ->
  Joi.validate coerceDate Joi.defaults now userSchema (JObject props)
  = match firstUnknown props with
    | Some k =>
        {| Joi.error := Some [ {| Joi.message := Joi.Builtin "object.unknown" k;
                                  Joi.path := k; Joi.type := "object.unknown" |} ];
           Joi.value := JObject props |}
    | None => {| Joi.error := None; Joi.value := validated n1 n2 tv |}
    end.
Proof.
  intros G1 V1 G2 V2 G3 Hc Hle.
  unfold Joi.validate. cbn [Joi.abortEarly Joi.defaults].
  rewrite unknownKeys_firstUnknown.
  unfold userSchema at 1, Joi.object. cbn [Joi.validateKeys]. rewrite G1, G2, G3.
  rewrite !validateValue_name_accepts by (assumption || reflexivity).
  unfold Joi.validateValue, Joi.base. cbn [Joi.baseType Joi.messages Joi.required
    Joi.max_now Joi.addRule Joi.iso Joi.date Joi.format Joi.rules app].
  rewrite Hc. cbn [Joi.runRules Joi.ruleError].
  destruct (Z.leb_spec tv now); [|lia]. cbn [map].
  destruct (firstUnknown props); reflexivity.
Qed.

(** X10.  A request with two valid names, a date of birth that converts
    to an instant not after the validation clock, and no other property
    is answered 201 when the store is reachable, its sequence of
    identifiers is not used up, the server's local clock reads the instant
    of birth no later than the instant of the call (it was not set back in
    between) and the age is at most 150; the row stored has the trimmed
    names, the converted date, the computed age and the next identifier. *)
Theorem valid_request_created (w : World) (db : Pg.Database) props n1 n2 s tv :
  get props "firstName" = JString n1 -> validName n1 ->
  get props "lastName" = JString n2 -> validName n2 ->
  get props "dateOfBirth" = JString s ->
  coerceDate (Some "iso"%string) (JString s) = Some tv ->
  tv <= clock w ->
  firstUnknown props = None ->
  storageFault w = None ->
  Pg.users_id_seq db < Pg.maxSerial ->
  JsDate.LocalTime (LocalTZA w) tv <= JsDate.LocalTime (LocalTZA w) (newDate w) ->
  calculateAge (LocalTZA w) (newDate w) tv <= 150 ->
  let a := calculateAge (LocalTZA w) (newDate w) tv in
  let row := {| Pg.id := Pg.users_id_seq db + 1;
                Pg.first_name := JsString.trim n1; Pg.last_name := JsString.trim n2;
                Pg.date_of_birth := tv; Pg.age := a;
                Pg.is_eligible := a >=? 18; Pg.created_at := NOW w |} in
  checkEligibility coerceDate w db (JObject props)
  = ({| status := 201;
        body := Eligibility (Pg.users_id_seq db + 1) a (a >=? 18)
                            (eligibilityMessage (a >=? 18)) (NOW w) |},
     {| Pg.users := Pg.users db ++ [row]; Pg.users_id_seq := Pg.users_id_seq db + 1 |}).
Proof.
  intros G1 V1 G2 V2 G3 Hc Hle Hu Hf Hseq Hclock Hage a row.
  pose proof (validate_valid_fields (clock w) props n1 n2 s tv G1 V1 G2 V2 G3 Hc Hle) as Hv.
  rewrite Hu in Hv.
  rewrite (checkEligibility_validated coerceDate w db props n1 n2 tv Hv).
  fold a. unfold queryInsert. rewrite Hf.
  assert (Ha : 0 <= a) by (apply calculateAge_nonneg; exact Hclock).
  destruct (insertUser_cases (NOW w) db (JsString.trim n1) (JsString.trim n2) tv a (a >=? 18))
    as [(err & db' & _ & _ & _ & _ & _ & Hbad)|(_ & _ & _ & _ & ->)]; [|reflexivity].
  exfalso. destruct V1 as [[_ L1] _]. destruct V2 as [[_ L2] _].
  pose proof (JsStringFacts.trim_length n1). pose proof (JsStringFacts.trim_length n2).
  unfold a in *. lia.
Qed.

(** X11.  A request whose three fields are valid but which carries a
    property the schema does not name is refused with 400, the one message
    being Joi's 'is not allowed' for the first such property, and nothing
    is stored. *)
Theorem unknown_property_refused (w : World) (db : Pg.Database) props n1 n2 s tv k :
  get props "firstName" = JString n1 -> validName n1 ->
  get props "lastName" = JString n2 -> validName n2 ->
  get props "dateOfBirth" = JString s ->
  coerceDate (Some "iso"%string) (JString s) = Some tv ->
  tv <= clock w ->
  firstUnknown props = Some k ->
  checkEligibility coerceDate w db (JObject props)
  = ({| status := 400;
        body := ValidationFailed "Validation failed" [Joi.Builtin "object.unknown" k] |},
     db).
Proof.
  intros G1 V1 G2 V2 G3 Hc Hle Hu.
  pose proof (validate_valid_fields (clock w) props n1 n2 s tv G1 V1 G2 V2 G3 Hc Hle) as Hv.
  rewrite Hu in Hv.
  erewrite checkEligibility_invalid by (rewrite Hv; reflexivity). reflexivity.
Qed.

(** X12.  A request in which firstName is missing, or firstName is valid
    and lastName is missing, or both names are valid and dateOfBirth is
    missing, is refused with 400 and the one message is Joi's 'is
    required' for that field. *)
Theorem missing_field_required (w : World) (db : Pg.Database) props :
  let refused label :=
    checkEligibility coerceDate w db (JObject props)
    = ({| status := 400;
          body := ValidationFailed "Validation failed" [Joi.Builtin "any.required" label] |},
       db) in
  (get props "firstName" = JUndefined -> refused "firstName"%string)
  /\ (forall n1, get props "firstName" = JString n1 -> validName n1 ->
      get props "lastName" = JUndefined -> refused "lastName"%string)
  /\ (forall n1 n2, get props "firstName" = JString n1 -> validName n1 ->
      get props "lastName" = JString n2 -> validName n2 ->
      get props "dateOfBirth" = JUndefined -> refused "dateOfBirth"%string).
Proof.
  intros refused. subst refused. cbv beta. repeat split.
  - intros G1.
    erewrite checkEligibility_invalid
      by (unfold Joi.validate, userSchema, Joi.object; cbn [Joi.validateKeys];
          rewrite G1; reflexivity).
    reflexivity.
  - intros n1 G1 V1 G2.
    erewrite checkEligibility_invalid
      by (unfold Joi.validate, userSchema, Joi.object; cbn [Joi.validateKeys];
          rewrite G1, G2;
          rewrite validateValue_name_accepts by (assumption || reflexivity);
          reflexivity).
    reflexivity.
  - intros n1 n2 G1 V1 G2 V2 G3.
    erewrite checkEligibility_invalid
      by (unfold Joi.validate, userSchema, Joi.object; cbn [Joi.validateKeys];
          rewrite G1, G2, G3;
          rewrite !validateValue_name_accepts by (assumption || reflexivity);
          reflexivity).
    reflexivity.
Qed.
End V.

Section M.
Variable coerceDate : option string -> JsValue -> option JsDate.t.
Variable prefs : Joi.Prefs.
Variable now : Z.

Lemma validateKeys_errors_from_fields (keys : Joi.ObjectSchema) props (d : Joi.Detail) :
  In d (snd (Joi.validateKeys coerceDate prefs now keys props)) ->
  exists ks, In ks keys /\ In d (fieldErrors coerceDate prefs now props ks).
Proof.
  induction keys as [|[k s] keys IH]; cbn [Joi.validateKeys]; [intros []|].
  destruct (Joi.validateValue coerceDate prefs now s k (get props k)) as [v errs] eqn:E.
  assert (Hf : fieldErrors coerceDate prefs now props (k, s) = errs)
    by (unfold fieldErrors; cbn [fst snd]; rewrite E; reflexivity).
  destruct (Joi.validateKeys coerceDate prefs now keys props) as [vs errs'].
  cbn [snd] in IH.
  destruct errs as [|e errs].
  - cbn [snd]. intros Hd. destruct (IH Hd) as (ks & Hin & Hd'). exists ks. split; [now right|exact Hd'].
  - destruct (Joi.abortEarly prefs); cbn [snd]; intros Hd.
    + exists (k, s). split; [now left|]. rewrite Hf. exact Hd.
    + apply in_app_or in Hd as [Hd|Hd].
      * exists (k, s). split; [now left|]. rewrite Hf. exact Hd.
      * destruct (IH Hd) as (ks & Hin & Hd'). exists ks. split; [now right|exact Hd'].
Qed.

(** The error types a name field and the date field can raise. *)
Lemma name_field_errors (s : Joi.Schema) (label : string) (v : JsValue) regex :
  Joi.baseType s = Joi.StringType ->
  Joi.rules s = [Joi.RuleMin 1; Joi.RuleMax 50; Joi.RulePattern regex] ->
  Forall (fun d => exists ty,
              d = Joi.detail s label ty
              /\ In ty ["any.required"; "string.base"; "string.empty"; "string.max";
                        "string.pattern.base"]%string)
         (snd (Joi.validateValue coerceDate prefs now s label v)).
Proof.
  intros Hb Hr. unfold Joi.validateValue, Joi.base, Joi.hasMinZero. rewrite Hb, Hr.
  assert (R : Forall (fun d => exists ty, d = Joi.detail s label ty
                /\ In ty ["any.required"; "string.base"; "string.empty"; "string.max";
                          "string.pattern.base"]%string)
                [Joi.detail s label "string.base"]).
  { repeat constructor. eexists. split; [reflexivity|]. cbn. auto. }
  destruct v as [| |b|z|n|tv|items|ps]; cbn [snd existsb orb]; try exact R.
  - destruct (Joi.presenceRequired s); repeat constructor.
    eexists. split; [reflexivity|]. cbn. auto.
  - destruct n as [|c n]; cbn [snd].
    + repeat constructor. eexists. split; [reflexivity|]. cbn. auto.
    + cbn [Joi.runRules Joi.ruleError].
      replace (JsString.length (c :: n) <? 1)%nat with false by reflexivity.
      destruct (50 <? JsString.length (c :: n))%nat; destruct (regex (c :: n));
        destruct (Joi.abortEarly prefs); cbn [map];
        repeat constructor; eexists; (split; [reflexivity|]); cbn; auto 6.
Qed.

Lemma date_field_errors (s : Joi.Schema) (label : string) (v : JsValue) :
  Joi.baseType s = Joi.DateType ->
  Joi.rules s = [Joi.RuleMaxNow] ->
  Forall (fun d => exists ty,
              d = Joi.detail s label ty
              /\ In ty ["any.required"; "date.base"; "date.format"; "date.max"]%string)
         (snd (Joi.validateValue coerceDate prefs now s label v)).
Proof.
  intros Hb Hr. unfold Joi.validateValue, Joi.base. rewrite Hb, Hr.
  assert (G : forall tv, Forall (fun d => exists ty, d = Joi.detail s label ty
                /\ In ty ["any.required"; "date.base"; "date.format"; "date.max"]%string)
                (map (Joi.detail s label) (Joi.runRules prefs now [Joi.RuleMaxNow] (JDate tv)))).
  { intros tv. cbn [Joi.runRules Joi.ruleError].
    destruct (tv <=? now); destruct (Joi.abortEarly prefs); cbn [map];
      repeat constructor; eexists; (split; [reflexivity|]); cbn; auto 6. }
  destruct v as [| |b|z|n|tv|items|ps]; cbn [snd];
    try (destruct (coerceDate (Joi.format s) _) as [tv'|]; cbn [snd]; [apply G|];
         destruct (Joi.format s); repeat constructor; eexists;
         (split; [reflexivity|]); cbn; auto 6).
  - destruct (Joi.presenceRequired s); repeat constructor.
    eexists. split; [reflexivity|]. cbn. auto.
  - apply G.
Qed.

Lemma userSchema_fields_notMinError props ks :
  In ks userSchema -> Forall notMinError (fieldErrors coerceDate prefs now props ks).
Proof.
  unfold userSchema, Joi.object. intros [<-|[<-|[<-|[]]]]; unfold fieldErrors; cbn [fst snd].
  - eapply Forall_impl; [|apply name_field_errors with (regex := nameRegex); reflexivity].
    intros d (ty & -> & Hty). cbn in Hty.
    repeat (destruct Hty as [<-|Hty]; [vm_compute; repeat split; discriminate|]).
    destruct Hty.
  - eapply Forall_impl; [|apply name_field_errors with (regex := nameRegex); reflexivity].
    intros d (ty & -> & Hty). cbn in Hty.
    repeat (destruct Hty as [<-|Hty]; [vm_compute; repeat split; discriminate|]).
    destruct Hty.
  - eapply Forall_impl; [|apply date_field_errors; reflexivity].
    intros d (ty & -> & Hty). cbn in Hty.
    repeat (destruct Hty as [<-|Hty]; [vm_compute; repeat split; discriminate|]).
    destruct Hty.
Qed.

Lemma validate_notMinError (input : JsValue) errs :
  Joi.error (Joi.validate coerceDate prefs now userSchema input) = Some errs ->
  Forall notMinError errs.
Proof.
  assert (Hu : forall props, Forall notMinError (Joi.unknownKeys userSchema props)).
  { intros props. unfold Joi.unknownKeys. apply Forall_forall. intros d Hd.
    apply in_map_iff in Hd as (kv & <- & _). repeat split; discriminate. }
  assert (Hk : forall props,
             Forall notMinError (snd (Joi.validateKeys coerceDate prefs now userSchema props))).
  { intros props. apply Forall_forall. intros d Hd.
    apply validateKeys_errors_from_fields in Hd as (ks & Hin & Hd).
    pose proof (userSchema_fields_notMinError props ks Hin) as HF.
    rewrite Forall_forall in HF. now apply HF. }
  destruct input as [| |b|z|n|tv|items|props]; cbn [Joi.validate Joi.error];
    try (intros H; inversion H; repeat constructor; discriminate); try discriminate.
  unfold Joi.validate. specialize (Hk props). specialize (Hu props).
  destruct (Joi.validateKeys coerceDate prefs now userSchema props) as [vs e1].
  cbn [snd] in Hk.
  assert (Hall : Forall notMinError (e1 ++ Joi.unknownKeys userSchema props))
    by (apply Forall_app; split; assumption).
  assert (H1 : Forall notMinError (firstn 1 (Joi.unknownKeys userSchema props))).
  { destruct (Joi.unknownKeys userSchema props) as [|u us]; [constructor|].
    inversion Hu; subst. cbn. constructor; [assumption|constructor]. }
  cbv zeta.
  match goal with
  | |- Joi.error (match ?X with [] => _ | _ :: _ => _ end) = _ -> _ => set (final := X)
  end.
  assert (Hfinal : Forall notMinError final).
  { subst final. destruct e1 as [|e es]; destruct (Joi.abortEarly prefs); assumption. }
  destruct final as [|f fs]; cbn [Joi.error]; [discriminate|].
  intros H; inversion H; subst. exact Hfinal.
Qed.
End M.

(** X13.  No request is ever answered with 'First name must be at least
    1 character long' or 'Last name must be at least 1 character long': an
    empty name is refused by Joi as 'string.empty' before the [min(1)]
    rule, and every other string satisfies the rule. *)
Theorem min_message_never_sent
        (coerceDate : option string -> JsValue -> option JsDate.t)
        (w : World) (db : Pg.Database) (reqBody : JsValue) e details :
  body (fst (checkEligibility coerceDate w db reqBody)) = ValidationFailed e details ->
  ~ In (Joi.Custom "First name must be at least 1 character long") details
  /\ ~ In (Joi.Custom "Last name must be at least 1 character long") details.
Proof.
  intros H.
  destruct (Joi.error (Joi.validate coerceDate Joi.defaults (clock w) userSchema reqBody))
    as [errs|] eqn:E.
  - pose proof (validate_notMinError coerceDate Joi.defaults (clock w) reqBody errs E) as HF.
    rewrite (checkEligibility_invalid coerceDate w db reqBody errs E) in H.
    cbn in H. inversion H; subst. rewrite Forall_forall in HF.
    split; intros Hin; apply in_map_iff in Hin as (d & Hm & Hd);
      destruct (HF d Hd) as (_ & N1 & N2); congruence.
  - exfalso.
    destruct (checkEligibility_cases coerceDate w db reqBody)
      as [(Hc & _)|(props & n1 & n2 & tv & _ & _ & _ & _ & _ & _ & _ & Hr)].
    + unfold checkEligibility in H. rewrite E in H.
      destruct (Joi.value _) as [| | | | | | |ps]; try (cbn in H; discriminate).
      destruct (get ps "firstName"), (get ps "lastName"), (get ps "dateOfBirth");
        try (cbn in H; discriminate).
      destruct (queryInsert _ _ _ _ _ _ _) as [[err|row] db'];
        [destruct (errorHandler_body (NODE_ENV w) err) as (? & ? & Hb);
         cbn [fst] in H; rewrite Hb in H; discriminate|cbn in H; discriminate].
    + cbv zeta in Hr. rewrite Hr in H. cbn in H. discriminate.
Qed.

(** X14.  For a fixed birth date the computed age does not decrease from
    one reference instant to another at which the server's local clock
    reads no earlier (the clock is set back when daylight time ends, and
    across that instant the age can drop, see
    [calculateAge_clock_set_back]). *)
Theorem calculateAge_monotone (tza : Z -> Z) (t1 t2 birthDate : Z) :
  JsDate.LocalTime tza t1 <= JsDate.LocalTime tza t2 ->
  calculateAge tza t1 birthDate <= calculateAge tza t2 birthDate.
Proof.
  intros Hle. unfold calculateAge, JsDate.getFullYear, JsDate.getMonth, JsDate.getDate.
  pose proof (JsDateFacts.calendar_mono _ _ (JsDateFacts.Day_mono _ _ Hle)) as Hc.
  set (d1 := JsDate.Day (JsDate.LocalTime tza t1)) in *.
  set (d2 := JsDate.Day (JsDate.LocalTime tza t2)) in *.
  set (b := JsDate.Day (JsDate.LocalTime tza birthDate)) in *.
  destruct (Z.ltb_spec (JsDate.MonthFromDay d1 - JsDate.MonthFromDay b) 0);
    destruct (Z.eqb_spec (JsDate.MonthFromDay d1 - JsDate.MonthFromDay b) 0);
    destruct (Z.ltb_spec (JsDate.DateFromDay d1) (JsDate.DateFromDay b));
    destruct (Z.ltb_spec (JsDate.MonthFromDay d2 - JsDate.MonthFromDay b) 0);
    destruct (Z.eqb_spec (JsDate.MonthFromDay d2 - JsDate.MonthFromDay b) 0);
    destruct (Z.ltb_spec (JsDate.DateFromDay d2) (JsDate.DateFromDay b));
    cbn [orb andb]; lia.
Qed.

(** The computed age is at least [n] exactly when the fields of the
    reference instant are on or after the (month, day) of birth in the
    year of birth plus [n]. *)
Lemma calculateAge_ge (tza : Z -> Z) (today birthDate n : Z) :
  n <= calculateAge tza today birthDate
  <-> (JsDate.getFullYear tza birthDate + n < JsDate.getFullYear tza today
       \/ (JsDate.getFullYear tza birthDate + n = JsDate.getFullYear tza today
           /\ ~ precedes (JsDate.getMonth tza today, JsDate.getDate tza today)
                         (JsDate.getMonth tza birthDate, JsDate.getDate tza birthDate))).
Proof.
  unfold calculateAge, precedes. cbn [fst snd].
  set (yt := JsDate.getFullYear tza today). set (yb := JsDate.getFullYear tza birthDate).
  set (mt := JsDate.getMonth tza today). set (mb := JsDate.getMonth tza birthDate).
  set (dt := JsDate.getDate tza today). set (db := JsDate.getDate tza birthDate).
  destruct (Z.ltb_spec (mt - mb) 0); destruct (Z.eqb_spec (mt - mb) 0);
    destruct (Z.ltb_spec dt db); cbn [orb andb]; split; intros; intuition lia.
Qed.

(** X15.  For a date of birth submitted as the calendar date [(y, m, d)]
    and read on that date by the server, the computed age is at least [n]
    exactly from the instant the server's local clock reaches midnight of
    [(m, d)] in the year [y + n]; for a birth on 29 February and a common
    year [y + n], from midnight of 1 March. *)
Theorem calculateAge_reaches (zone : Z -> Z) (y m d n today : Z) :
  0 <= m <= 11 ->
  1 <= d <= JsDate.DaysInMonth y m ->
  0 <= zone (JsDate.UTC y m d) < JsDate.msPerDay ->
  n <= calculateAge zone today (JsDate.UTC y m d)
  <-> turns y m d n <= JsDate.LocalTime zone today.
Proof.
  intros Hm Hd Hz.
  destruct (getters_birth zone y m d Hm Hd Hz) as (Y & M & D).
  rewrite calculateAge_ge, Y, M, D. unfold precedes. cbn [fst snd].
  destruct (JsDateFacts.getters_range zone today) as (Rm & Rd).
  unfold JsDate.getFullYear, JsDate.getMonth, JsDate.getDate in *.
  set (day := JsDate.Day (JsDate.LocalTime zone today)) in *.
  unfold turns, JsDate.UTC.
  destruct (Z.leb_spec d (JsDate.DaysInMonth (y + n) m)) as [Hv|Hv].
  - rewrite <- JsDateFacts.Day_ge. fold day.
    rewrite (JsDateFacts.on_or_after (y + n) m d day Hm ltac:(lia)). lia.
  - rewrite <- JsDateFacts.Day_ge. fold day.
    rewrite (JsDateFacts.on_or_after (y + n) 2 1 day ltac:(lia)
               ltac:(unfold JsDate.DaysInMonth; lia)).
    assert (Hfeb : m = 1 /\ d = 29 /\ JsDate.InLeapYear (y + n) = 0).
    { destruct (JsDateFacts.InLeapYear_spec y) as [_ Hl].
      destruct (JsDateFacts.InLeapYear_spec (y + n)) as [_ Hl'].
      unfold JsDate.DaysInMonth in Hd, Hv.
      set (l := JsDate.InLeapYear y) in *. set (l' := JsDate.InLeapYear (y + n)) in *.
      clearbody l l'. month_cases m; cbv beta iota in Hd, Hv; lia. }
    destruct Hfeb as (-> & -> & Hcommon).
    split.
    + intros [Hy|[Hy Hn]]; [left; exact Hy|right; split; [exact Hy|]].
      rewrite <- Hy in Rd. unfold JsDate.DaysInMonth in Rd.
      set (mt := JsDate.MonthFromDay day) in *. clearbody mt.
      assert (mt = 0 \/ mt = 1 \/ 2 <= mt) as [->|[->|Hge]] by lia.
      * lia.
      * cbv beta iota in Rd. lia.
      * lia.
    + intros [Hy|[Hy Hn]]; [left; exact Hy|right; split; [exact Hy|]]. lia.
Qed.

Example turns_leap_day_birth :
  turns 2000 1 29 24 = JsDate.UTC 2024 1 29 /\ turns 2000 1 29 23 = JsDate.UTC 2023 2 1.
Proof. vm_compute. split; reflexivity. Qed.

(** X16.  On the [k]-th anniversary of a calendar date (at midnight, on
    a server in UTC) the computed age is exactly [k]. *)
Theorem calculateAge_anniversary (y m d k : Z) :
  0 <= m <= 11 ->
  1 <= d <= JsDate.DaysInMonth y m ->
  d <= JsDate.DaysInMonth (y + k) m ->
  calculateAge (JsDate.fixed 0) (JsDate.UTC (y + k) m d) (JsDate.UTC y m d) = k.
Proof.
  intros Hm Hd Hd'.
  destruct (JsDateFacts.getters_UTC y m d Hm Hd) as (Y1 & M1 & D1).
  destruct (JsDateFacts.getters_UTC (y + k) m d Hm ltac:(lia)) as (Y2 & M2 & D2).
  unfold calculateAge. rewrite Y1, M1, D1, Y2, M2, D2.
  rewrite Z.sub_diag, (Z.ltb_irrefl d).
  change (0 <? 0) with false. change (0 =? 0) with true. cbn [orb andb]. lia.
Qed.

(** X17.  Whatever the error, the reply of the error middleware has a
    status other than 0, [success: false] and an error text that is not
    empty. *)
Theorem errorHandler_reply_shape (env : option string) (err : JsError) :
  status (errorHandler env err) <> 0
  /\ exists msg st, body (errorHandler env err) = Failure false msg st
                    /\ msg <> EmptyString.
Proof.
  unfold errorHandler.
  destruct (String.eqb (name err) "error" && truthy (code err)) eqn:Hpg.
  - destruct (code err) as [c|] eqn:Hc.
    + destruct (String.eqb c "23505"); [|destruct (String.eqb c "23503");
        [|destruct (String.eqb c "23502")]];
      cbn; (split; [discriminate|]); do 2 eexists; (split; [reflexivity|discriminate]).
    + apply andb_prop in Hpg as [_ Hpg]. discriminate.
  - cbn. split.
    + destruct (statusCode err) as [[|p|p]|]; discriminate.
    + destruct (message err) as [|a m]; do 2 eexists;
        (split; [reflexivity|discriminate]).
Qed.

(** X18.  A request that no route matches is answered 404 with the text
    'Not Found - ' followed by the requested URL; the status set by
    [notFoundHandler] survives the error middleware. *)
Theorem unmatched_route_reply (env : option string) (originalUrl trace : string) :
  unmatchedRoute env originalUrl trace
  = {| status := 404; body := Failure false ("Not Found - " ++ originalUrl) None |}.
Proof.
  unfold unmatchedRoute. rewrite errorHandler_other_error; reflexivity || discriminate.
Qed.

(** X19.  The validators of a name control of the form accept exactly
    the strings that match the pattern (and refuse [null]); the schema of
    the server accepts exactly those of them that are at most 50 code
    units long. *)
Theorem form_names_and_schema (n : jsstring) :
  EligibilityComponent.controlValid EligibilityComponent.nameValidators None = false
  /\ EligibilityComponent.controlValid EligibilityComponent.nameValidators (Some n)
     = nameRegex n
  /\ (validName n
      <-> EligibilityComponent.controlValid EligibilityComponent.nameValidators (Some n) = true
          /\ (JsString.length n <= 50)%nat).
Proof.
  assert (H : EligibilityComponent.controlValid EligibilityComponent.nameValidators (Some n)
              = nameRegex n).
  { unfold EligibilityComponent.controlValid, EligibilityComponent.nameValidators.
    cbn [forallb]. unfold Validators.required, Validators.minLength, Validators.pattern.
    destruct n as [|c n]; [reflexivity|]. cbn [Validators.isEmptyInputValue negb andb].
    replace (JsString.length (c :: n) <? 1)%nat with false by reflexivity.
    cbn [negb andb]. now rewrite andb_true_r. }
  split; [reflexivity|]. split; [exact H|]. rewrite H. unfold validName.
  split.
  - intros [[_ Hhi] Hre]. auto.
  - intros [Hre Hhi]. repeat split; try assumption.
    destruct n; [discriminate|cbn; lia].
Qed.

Section F.
Variable coerceDate : option string -> JsValue -> option JsDate.t.

(** X20.  A first name that the form accepts and that is longer than 50
    code units is refused by the server with 400 and the one message
    'First name cannot exceed 50 characters', whatever the other fields
    are. *)
Theorem long_name_passes_form_only (w : World) (db : Pg.Database) props (n : jsstring) :
  get props "firstName" = JString n ->
  EligibilityComponent.controlValid EligibilityComponent.nameValidators (Some n) = true ->
  (50 < JsString.length n)%nat ->
  checkEligibility coerceDate w db (JObject props)
  = ({| status := 400;
        body := ValidationFailed "Validation failed"
                  [Joi.Custom "First name cannot exceed 50 characters"] |}, db).
Proof.
  intros G Hform Hlen.
  rewrite (checkEligibility_invalid coerceDate w db (JObject props)
             [ {| Joi.message := Joi.Custom "First name cannot exceed 50 characters";
                  Joi.path := "firstName"; Joi.type := "string.max" |} ]);
    [reflexivity|].
  unfold Joi.validate, userSchema, Joi.object. cbn [Joi.validateKeys]. rewrite G.
  unfold Joi.validateValue, Joi.base.
  cbn [Joi.baseType Joi.messages Joi.required Joi.pattern Joi.max Joi.min Joi.addRule
       Joi.string Joi.rules app Joi.hasMinZero existsb orb].
  destruct n as [|c n]; [cbn in Hlen; lia|].
  cbn [Joi.runRules Joi.ruleError].
  replace (JsString.length (c :: n) <? 1)%nat with false by reflexivity.
  destruct (Nat.ltb_spec 50 (JsString.length (c :: n))); [|lia].
  reflexivity.
Qed.
End F.

Lemma append_nonempty (a b : string) : a <> EmptyString -> (a ++ b)%string <> EmptyString.
Proof. destruct a; [congruence|discriminate]. Qed.

(** X21.  The text [handleError] produces is never empty, so the snack
    bar shows that text and never the fallback text of the component. *)
Theorem handleError_text_shown (e : EligibilityService.HttpErrorResponse.t) :
  EligibilityService.handleError e <> EmptyString
  /\ EligibilityComponent.snackBarText (Some (EligibilityService.handleError e))
     = EligibilityService.handleError e.
Proof.
  assert (H : EligibilityService.handleError e <> EmptyString).
  { unfold EligibilityService.handleError.
    destruct (EligibilityService.HttpErrorResponse.error e) as [m|b|];
      try discriminate.
    destruct (EligibilityService.bodyError b) as [[|c t]|]; discriminate. }
  split; [exact H|]. unfold EligibilityComponent.snackBarText.
  destruct (EligibilityService.handleError e); [congruence|reflexivity].
Qed.

Section Svc.
Variable coerceDate : option string -> JsValue -> option JsDate.t.
Variable failureMessage : Z -> string.

(** X22.  When a submission fails validation and the reply to the
    second attempt arrives, the service throws the text 'Validation
    failed' (none of the messages of the detail list) and the table is
    unchanged, whatever became of the first attempt. *)
Theorem validation_failure_shown (net1 : EligibilityService.Transport)
        (w1 w2 : World) (db : Pg.Database) (data : JsValue) details1 details2 :
  Joi.error (Joi.validate coerceDate Joi.defaults (clock w1) userSchema data)
  = Some details1 ->
  Joi.error (Joi.validate coerceDate Joi.defaults (clock w2) userSchema data)
  = Some details2 ->
  EligibilityService.checkEligibility coerceDate failureMessage
    net1 EligibilityService.Delivered w1 w2 db data
  = (inr "Validation failed"%string, db).
Proof.
  intros E1 E2. unfold EligibilityService.checkEligibility, EligibilityService.post.
  assert (Second :
            (let (r, db') := checkEligibility coerceDate w2 db data in
             (EligibilityService.received failureMessage r, db'))
            = (inr {| EligibilityService.HttpErrorResponse.error :=
                        EligibilityService.ServerBody
                          (ValidationFailed "Validation failed" (map Joi.message details2));
                      EligibilityService.HttpErrorResponse.status := 400;
                      EligibilityService.HttpErrorResponse.message := failureMessage 400 |},
               db)).
  { rewrite (checkEligibility_invalid coerceDate w2 db data details2 E2). reflexivity. }
  destruct net1 as [|event|event].
  - rewrite (checkEligibility_invalid coerceDate w1 db data details1 E1).
    cbn [EligibilityService.received status andb Z.leb Z.ltb Z.compare Pos.compare
         Pos.compare_cont].
    rewrite Second. reflexivity.
  - rewrite Second. reflexivity.
  - rewrite (checkEligibility_invalid coerceDate w1 db data details1 E1).
    rewrite Second. reflexivity.
Qed.

(** What one POST adds to the table. *)
Lemma post_rows (net : EligibilityService.Transport) (w : World) (db : Pg.Database)
      (data : JsValue) :
  let r := EligibilityService.post coerceDate failureMessage net w db data in
  exists rows,
    Pg.users (snd r) = Pg.users db ++ rows
    /\ (List.length rows <= 1)%nat
    /\ (lostReply net = false ->
        (List.length rows = 1%nat
         <-> exists i a e m ts, fst r = inl (Eligibility i a e m ts))).
Proof.
  intros r. subst r. unfold EligibilityService.post.
  destruct net as [|event|event].
  - pose proof (checkEligibility_cases coerceDate w db data) as Hcases.
    destruct (checkEligibility coerceDate w db data) as [r db']. cbn [fst snd] in *.
    destruct Hcases as [(Hc & Hu & _)|(props & n1 & n2 & tv & _ & _ & _ & _ & _ & _ & _ & Hr)].
    + exists []. rewrite Hu, app_nil_r. cbn. repeat split; try lia.
      intros (i & a & e & m & ts & Hin). exfalso. revert Hin.
      unfold EligibilityService.received, isCreated in *.
      destruct ((200 <=? status r) && (status r <? 300)); [|discriminate].
      intros Hin. inversion Hin as [Hb]. rewrite Hb in Hc. discriminate.
    + cbv zeta in Hr. inversion Hr; subst.
      cbn [EligibilityService.received status body].
      change ((200 <=? 201) && (201 <? 300)) with true. cbv iota. cbn [fst snd Pg.users].
      eexists. split; [reflexivity|]. cbn. repeat split; try lia. eauto 10.
  - exists []. cbn [fst snd]. rewrite app_nil_r. cbn. repeat split; try lia.
    intros (i & a & e & m & ts & Hin). discriminate.
  - pose proof (checkEligibility_cases coerceDate w db data) as Hcases.
    destruct (checkEligibility coerceDate w db data) as [r db']. cbn [fst snd] in *.
    destruct Hcases as [(Hc & Hu & _)|(props & n1 & n2 & tv & _ & _ & _ & _ & _ & _ & _ & Hr)].
    + exists []. rewrite Hu, app_nil_r. cbn. repeat split; try lia; discriminate.
    + cbv zeta in Hr. inversion Hr; subst. cbn [Pg.users].
      eexists. split; [reflexivity|]. cbn. repeat split; try lia; discriminate.
Qed.

(** X23.  One call of the service sends the POST at most twice, so it
    stores at most two rows, and two only when the reply to the first
    attempt was lost on the way back.  When no reply is lost it stores at
    most one row, and one exactly when it delivers an eligibility
    result. *)
Theorem service_stores_at_most_two_rows (net1 net2 : EligibilityService.Transport)
        (w1 w2 : World) (db : Pg.Database) (data : JsValue) :
  let r := EligibilityService.checkEligibility coerceDate failureMessage
             net1 net2 w1 w2 db data in
  exists rows,
    Pg.users (snd r) = Pg.users db ++ rows
    /\ (List.length rows <= 2)%nat
    /\ (List.length rows = 2%nat -> lostReply net1 = true)
    /\ (lostReply net1 = false -> lostReply net2 = false ->
        (List.length rows <= 1)%nat
        /\ (List.length rows = 1%nat
            <-> exists i a e m ts, fst r = inl (Eligibility i a e m ts))).
Proof.
  intros r. subst r. unfold EligibilityService.checkEligibility.
  assert (Conv : forall b : Body,
             (exists i a e m ts,
                 @inl Body EligibilityService.HttpErrorResponse.t b
                 = inl (Eligibility i a e m ts))
             <-> (exists i a e m ts, @inl Body string b = inl (Eligibility i a e m ts))).
  { intros b. split; intros (i & a & e & m & ts & E); inversion E; subst; eauto 10. }
  destruct (post_rows net1 w1 db data) as (rows1 & U1 & L1 & C1).
  destruct (EligibilityService.post coerceDate failureMessage net1 w1 db data)
    as [[b1|e1] db1]; cbn [fst snd] in *.
  { exists rows1. split; [exact U1|]. split; [lia|]. split; [lia|].
    intros N1 _. split; [exact L1|]. exact (iff_trans (C1 N1) (Conv b1)). }
  assert (Hfirst : lostReply net1 = false -> rows1 = []).
  { intros N1. destruct (C1 N1) as [_ Hc]. destruct rows1 as [|x [|y rest]]; [reflexivity| |].
    - exfalso. cbn in L1.
      assert (Hn : ~ exists i a e m ts, @inr Body _ e1 = inl (Eligibility i a e m ts))
        by (intros (i & a & e & m & ts & H); discriminate).
      destruct (C1 N1) as [Hto _]. apply Hn, Hto. reflexivity.
    - cbn in L1. lia. }
  destruct (post_rows net2 w2 db1 data) as (rows2 & U2 & L2 & C2).
  destruct (EligibilityService.post coerceDate failureMessage net2 w2 db1 data)
    as [[b2|e2] db2]; cbn [fst snd] in *;
    (exists (rows1 ++ rows2); rewrite U2, U1, <- app_assoc, length_app;
     split; [reflexivity|]; split; [lia|]; split;
     [intros H2; destruct (lostReply net1) eqn:N1; [reflexivity|];
      rewrite (Hfirst eq_refl) in H2; cbn in H2; lia|];
     intros N1 N2; rewrite (Hfirst N1); cbn [List.length Nat.add];
     split; [exact L2|]).
  - exact (iff_trans (C2 N2) (Conv b2)).
  - split.
    + intros H2. apply (C2 N2) in H2. destruct H2 as (i & a & e & m & ts & E).
      discriminate.
    + intros (i & a & e & m & ts & E). discriminate.
Qed.

(** A reply lost after the row was stored: the retry stores the same
    person a second time, and the caller is told of the second row only. *)
Example lost_reply_stores_twice :
  EligibilityService.checkEligibility Sample.coerceDate failureMessage
    (EligibilityService.ReplyLost EligibilityService.NoPayload) EligibilityService.Delivered
    Sample.world Sample.world Pg.empty Scenario.john
  = (inl (Eligibility 2 34 true "You are eligible for the program" (NOW Sample.world)),
     {| Pg.users :=
          [ {| Pg.id := 1; Pg.first_name := JsString.of_string "John";
               Pg.last_name := JsString.of_string "Doe";
               Pg.date_of_birth := JsDate.UTC 1990 0 1; Pg.age := 34;
               Pg.is_eligible := true; Pg.created_at := NOW Sample.world |};
            {| Pg.id := 2; Pg.first_name := JsString.of_string "John";
               Pg.last_name := JsString.of_string "Doe";
               Pg.date_of_birth := JsDate.UTC 1990 0 1; Pg.age := 34;
               Pg.is_eligible := true; Pg.created_at := NOW Sample.world |} ];
        Pg.users_id_seq := 2 |}).
Proof. vm_compute. reflexivity. Qed.
End Svc.




Example picked_in_paris :
  EligibilityComponent.toISODate (JsDate.UTC 2006 5 15 - 7200000) = "2006-06-14"%string
  /\ EligibilityComponent.toISODate (JsDate.UTC 2006 5 15) = "2006-06-15"%string
  /\ EligibilityComponent.toISODate (JsDate.UTC 2006 5 15 + 18000000) = "2006-06-15"%string.
Proof. vm_compute. repeat split; reflexivity. Qed.

(** ** The properties above at work *)

Lemma statistics_counts_add_up_witness :
  2 = 1 + 1 /\ 0 <= 1 /\ 0 <= 1
  /\ 2 = Z.of_nat (List.length
                     (Pg.users (snd (checkEligibility Sample.coerceDate Sample.world
                                       Scenario.afterJohn Scenario.jane)))).
Proof.
  apply (statistics_counts_add_up Sample.world
           (snd (checkEligibility Sample.coerceDate Sample.world Scenario.afterJohn Scenario.jane))
           2 1 1 (Qmake 2400 100)).
  vm_compute. reflexivity.
Defined.

Lemma statistics_after_check_witness :
  exists t el inel avg avg',
    getStatistics Sample.world Scenario.afterJohn
    = {| status := 200; body := Statistics t el inel avg |}
    /\ getStatistics Sample.world
         (snd (checkEligibility Sample.coerceDate Sample.world Scenario.afterJohn Scenario.jane))
       = {| status := 200;
            body := Statistics (t + 1) (el + if false then 1 else 0)
                               (inel + if false then 0 else 1) avg' |}.
Proof.
  apply (statistics_after_check Sample.coerceDate Sample.world Sample.world Scenario.afterJohn Scenario.jane
           2 14 false "You are not eligible for the program" (NOW Sample.world)).
  - vm_compute. reflexivity.
  - reflexivity.
Defined.

Lemma stored_ids_fresh_witness :
  let ids := map Pg.id (Pg.users (snd (checkEligibility Sample.coerceDate Sample.world
                                         Scenario.afterJohn Scenario.jane))) in
  increasing ids /\ NoDup ids
  /\ (forall r, In r (Pg.users Scenario.afterJohn) -> 1 <= Pg.id r < 2)
  /\ In 2 ids.
Proof.
  apply (stored_ids_fresh Sample.coerceDate Sample.world Scenario.afterJohn Scenario.jane
           2 14 false "You are not eligible for the program" (NOW Sample.world)).
  - apply reachable_call. apply reachable_empty.
  - vm_compute. reflexivity.
Defined.

Lemma statistics_split_by_age_witness :
  1 = Pg.count (fun r => Pg.age r >=? 18) (Pg.users Scenario.afterJohn)
  /\ 0 = Pg.count (fun r => Pg.age r <? 18) (Pg.users Scenario.afterJohn).
Proof.
  apply (statistics_split_by_age Sample.coerceDate Sample.world Scenario.afterJohn 1 1 0
           (Qmake 3400 100)).
  - apply reachable_call. apply reachable_empty.
  - vm_compute. reflexivity.
Defined.

Lemma statistics_average_bounds_witness : (0 <= Qmake 3400 100 <= 150)%Q.
Proof.
  apply (statistics_average_bounds Sample.coerceDate Sample.world Scenario.afterJohn 1 1 0
           (Qmake 3400 100)).
  - apply reachable_call. apply reachable_empty.
  - vm_compute. reflexivity.
Defined.

Lemma age_over_150_refused_witness :
  let reqBody := Sample.request "John" "Doe" "1850-01-01" in
  fst (checkEligibility Sample.coerceDate Sample.world Pg.empty reqBody)
  = {| status := 500; body := Failure false "Database error" None |}
  /\ Pg.users (snd (checkEligibility Sample.coerceDate Sample.world Pg.empty reqBody))
     = Pg.users Pg.empty.
Proof.
  apply (age_over_150_refused Sample.coerceDate Sample.world Pg.empty
           [ ("firstName"%string, Sample.str "John");
             ("lastName"%string, Sample.str "Doe");
             ("dateOfBirth"%string, Sample.str "1850-01-01") ]
           (JsString.of_string "John") (JsString.of_string "Doe") (JsDate.UTC 1850 0 1)).
  - vm_compute. reflexivity.
  - reflexivity.
  - vm_compute. reflexivity.
Defined.

Lemma valid_request_created_witness :
  checkEligibility Sample.coerceDate Sample.world Pg.empty Scenario.john
  = ({| status := 201;
        body := Eligibility 1 34 true "You are eligible for the program"
                            (NOW Sample.world) |},
     {| Pg.users := [ {| Pg.id := 1; Pg.first_name := JsString.of_string "John";
                         Pg.last_name := JsString.of_string "Doe";
                         Pg.date_of_birth := JsDate.UTC 1990 0 1; Pg.age := 34;
                         Pg.is_eligible := true; Pg.created_at := NOW Sample.world |} ];
        Pg.users_id_seq := 1 |}).
Proof.
  apply (valid_request_created Sample.coerceDate Sample.world Pg.empty
           [ ("firstName"%string, Sample.str "John");
             ("lastName"%string, Sample.str "Doe");
             ("dateOfBirth"%string, Sample.str "1990-01-01") ]
           (JsString.of_string "John") (JsString.of_string "Doe")
           (JsString.of_string "1990-01-01") (JsDate.UTC 1990 0 1)).
  - reflexivity.
  - vm_compute. repeat split; lia.
  - reflexivity.
  - vm_compute. repeat split; lia.
  - reflexivity.
  - reflexivity.
  - vm_compute. discriminate.
  - reflexivity.
  - reflexivity.
  - vm_compute. reflexivity.
  - vm_compute. discriminate.
  - vm_compute. discriminate.
Defined.

Lemma unknown_property_refused_witness :
  checkEligibility Sample.coerceDate Sample.world Pg.empty
    (JObject [ ("firstName"%string, Sample.str "John");
               ("middleName"%string, Sample.str "Q");
               ("lastName"%string, Sample.str "Doe");
               ("dateOfBirth"%string, Sample.str "1990-01-01") ])
  = ({| status := 400;
        body := ValidationFailed "Validation failed"
                  [Joi.Builtin "object.unknown" "middleName"] |},
     Pg.empty).
Proof.
  apply (unknown_property_refused Sample.coerceDate Sample.world Pg.empty
           _ (JsString.of_string "John") (JsString.of_string "Doe")
           (JsString.of_string "1990-01-01") (JsDate.UTC 1990 0 1)).
  - reflexivity.
  - vm_compute. repeat split; lia.
  - reflexivity.
  - vm_compute. repeat split; lia.
  - reflexivity.
  - reflexivity.
  - vm_compute. discriminate.
  - reflexivity.
Defined.

Lemma missing_field_required_witness :
  checkEligibility Sample.coerceDate Sample.world Pg.empty (JObject [])
  = ({| status := 400;
        body := ValidationFailed "Validation failed"
                  [Joi.Builtin "any.required" "firstName"] |},
     Pg.empty).
Proof.
  apply (proj1 (missing_field_required Sample.coerceDate Sample.world Pg.empty [])).
  reflexivity.
Defined.

Lemma min_message_never_sent_witness :
  ~ In (Joi.Custom "First name must be at least 1 character long")
       [Joi.Builtin "string.empty" "firstName"]
  /\ ~ In (Joi.Custom "Last name must be at least 1 character long")
          [Joi.Builtin "string.empty" "firstName"].
Proof.
  apply (min_message_never_sent Sample.coerceDate Sample.world Pg.empty
           (Sample.request EmptyString "Doe" "1990-01-01") "Validation failed").
  vm_compute. reflexivity.
Defined.

Lemma calculateAge_monotone_witness :
  calculateAge (JsDate.fixed 0) (JsDate.UTC 2024 5 14) (JsDate.UTC 2006 5 15)
  <= calculateAge (JsDate.fixed 0) (JsDate.UTC 2024 5 15) (JsDate.UTC 2006 5 15).
Proof.
  apply (calculateAge_monotone (JsDate.fixed 0) (JsDate.UTC 2024 5 14) (JsDate.UTC 2024 5 15)).
  vm_compute. discriminate.
Defined.

Lemma calculateAge_reaches_witness :
  23 <= calculateAge (JsDate.fixed 0) (JsDate.UTC 2023 2 1) (JsDate.UTC 2000 1 29)
  <-> turns 2000 1 29 23 <= JsDate.LocalTime (JsDate.fixed 0) (JsDate.UTC 2023 2 1).
Proof.
  apply (calculateAge_reaches (JsDate.fixed 0) 2000 1 29 23 (JsDate.UTC 2023 2 1)).
  - lia.
  - vm_compute. split; discriminate.
  - vm_compute. split; [discriminate|reflexivity].
Defined.

Lemma calculateAge_anniversary_witness :
  calculateAge (JsDate.fixed 0) (JsDate.UTC (2006 + 18) 5 15) (JsDate.UTC 2006 5 15) = 18.
Proof.
  apply (calculateAge_anniversary 2006 5 15 18); vm_compute; try split; discriminate.
Defined.

Lemma long_name_passes_form_only_witness :
  checkEligibility Sample.coerceDate Sample.world Pg.empty
    (Sample.request Scenario.longName "Doe" "1990-01-01")
  = ({| status := 400;
        body := ValidationFailed "Validation failed"
                  [Joi.Custom "First name cannot exceed 50 characters"] |}, Pg.empty).
Proof.
  apply (long_name_passes_form_only Sample.coerceDate Sample.world Pg.empty
           _ (JsString.of_string Scenario.longName)).
  - reflexivity.
  - vm_compute. reflexivity.
  - vm_compute. lia.
Defined.

Lemma validation_failure_shown_witness :
  EligibilityService.checkEligibility Sample.coerceDate (fun _ => EmptyString)
    EligibilityService.Delivered EligibilityService.Delivered
    Sample.world Sample.world Pg.empty (Sample.request "John123" "Doe" "1990-01-01")
  = (inr "Validation failed"%string, Pg.empty).
Proof.
  apply (validation_failure_shown Sample.coerceDate (fun _ => EmptyString)
           EligibilityService.Delivered Sample.world Sample.world Pg.empty
           (Sample.request "John123" "Doe" "1990-01-01")
           [ {| Joi.message := Joi.Custom "First name must contain only letters, spaces, hyphens, and apostrophes";
                Joi.path := "firstName"; Joi.type := "string.pattern.base" |} ]
           [ {| Joi.message := Joi.Custom "First name must contain only letters, spaces, hyphens, and apostrophes";
                Joi.path := "firstName"; Joi.type := "string.pattern.base" |} ]);
    vm_compute; reflexivity.
Defined.


Lemma statistics_unchanged_by_failed_check_witness :
  getStatistics Sample.world
    (snd (checkEligibility Sample.coerceDate Sample.world Scenario.afterJohn
            (Sample.request "John123" "Doe" "1990-01-01")))
  = getStatistics Sample.world Scenario.afterJohn.
Proof.
  apply (statistics_unchanged_by_failed_check Sample.coerceDate Sample.world Sample.world
           Scenario.afterJohn (Sample.request "John123" "Doe" "1990-01-01")).
  vm_compute. reflexivity.
Defined.

Lemma stored_rows_keep_constraints_witness :
  let r := {| Pg.id := 1; Pg.first_name := JsString.of_string "John";
              Pg.last_name := JsString.of_string "Doe";
              Pg.date_of_birth := JsDate.UTC 1990 0 1; Pg.age := 34;
              Pg.is_eligible := true; Pg.created_at := NOW Sample.world |} in
  rowConstraints r
  /\ Pg.is_eligible r = (Pg.age r >=? 18)
  /\ forallb nameChar (Pg.first_name r) = true
  /\ forallb nameChar (Pg.last_name r) = true
  /\ JsString.trim (Pg.first_name r) = Pg.first_name r
  /\ JsString.trim (Pg.last_name r) = Pg.last_name r.
Proof.
  intros r.
  apply (stored_rows_keep_constraints Sample.coerceDate Scenario.afterJohn r).
  - apply reachable_call. apply reachable_empty.
  - vm_compute. left. reflexivity.
Defined.
